(** * epub_to_md: a shallow embedding of [main.py] (class [EPUBProcessor])

    The development follows the source file top to bottom: Python strings and
    the three regular-expression substitutions, [clean_filename], the node
    tree handed back by the markup parser and [extract_title_from_content],
    [html_to_markdown], the per-item loop of [process_chapters], the two
    writers [save_chapters] and [create_index_file], and finally [process]
    and [main].

    External collaborators (ebooklib, BeautifulSoup's parser, markdownify, the
    UTF-8 codec, the Unicode case and digit tables, the file system) are
    section variables: every statement holds for whatever they return. *)

From Stdlib Require Import NArith List Ascii String Lia Bool Arith.
From Stdlib Require Import DecimalNat.
From stdpp Require Import base option list strings gmap.

(** ** Python [str]: a sequence of Unicode code points *)

Definition char := N.
Definition str := list char.

Definition chr (a : ascii) : char := N_of_ascii a.

(** A string literal of the source, as a [str]. *)
Definition py (s : string) : str := List.map chr (list_ascii_of_string s).

Definition char_eqb (a b : char) : bool := N.eqb a b.

Definition SP : char := chr " ".
Definition NL : char := 10%N.
Definition LT : char := chr "<".
Definition GT : char := chr ">".
Definition UNDERSCORE : char := chr "_".
Definition DQUOTE : char := 34%N.

(** [Py_UNICODE_ISSPACE]: the table behind both [\s] in a [str] pattern and
    the argument-less [str.strip]. *)
Definition isspace (c : char) : bool :=
  ((9 <=? c) && (c <=? 13) || (28 <=? c) && (c <=? 32)
   || (c =? 133) || (c =? 160) || (c =? 5760)
   || (8192 <=? c) && (c <=? 8202)
   || (c =? 8232) || (c =? 8233) || (c =? 8239) || (c =? 8287)
   || (c =? 12288))%N.

Fixpoint lstrip (s : str) : str :=
  match s with
  | [] => []
  | c :: t => if isspace c then lstrip t else s
  end.

Definition rstrip (s : str) : str := rev (lstrip (rev s)).

(** [s.strip()] *)
Definition strip (s : str) : str := rstrip (lstrip s).

(** ** The three substitutions of [clean_filename] *)

(** Index of the first occurrence of [x]. *)
Fixpoint index_of (x : char) (s : str) : option nat :=
  match s with
  | [] => None
  | c :: t => if char_eqb c x then Some 0 else option_map S (index_of x t)
  end.

(** [re.sub(r'<[^>]+>', '', s)].  At a ['<'] the pattern matches exactly when
    the first ['>'] to its right is at least one character away; the match
    then ends at that ['>'].  [skip] counts the characters of the current
    match that are still to be dropped. *)
Fixpoint sub_tags_from (skip : nat) (s : str) : str :=
  match s with
  | [] => []
  | c :: t =>
      match skip with
      | S k => sub_tags_from k t
      | O =>
          if char_eqb c LT then
            match index_of GT t with
            | Some (S k) => sub_tags_from (S (S k)) t
            | _ => c :: sub_tags_from 0 t
            end
          else c :: sub_tags_from 0 t
      end
  end.

Definition sub_tags (s : str) : str := sub_tags_from 0 s.

(** The character class of the second substitution: the nine characters
    less-than, greater-than, colon, double quote, slash, backslash, bar,
    question mark and star. *)
Definition is_unsafe (c : char) : bool :=
  char_eqb c LT || char_eqb c GT || char_eqb c (chr ":") || char_eqb c DQUOTE
  || char_eqb c (chr "/") || char_eqb c (chr "\") || char_eqb c (chr "|")
  || char_eqb c (chr "?") || char_eqb c (chr "*").

(** [re.sub] of that class by ['_'], one for one. *)
Definition sub_unsafe (s : str) : str :=
  List.map (fun c => if is_unsafe c then UNDERSCORE else c) s.

(** [re.sub(r'\s+', ' ', s)]: [in_run] says that the previous character was
    white space, whose run has already been replaced by one space. *)
Fixpoint sub_spaces_from (in_run : bool) (s : str) : str :=
  match s with
  | [] => []
  | c :: t =>
      if isspace c
      then (if in_run then sub_spaces_from true t else SP :: sub_spaces_from true t)
      else c :: sub_spaces_from false t
  end.

Definition sub_spaces (s : str) : str := sub_spaces_from false s.

(** ** [EPUBProcessor.clean_filename] *)

(** The value of [title] after the third assignment, before the slice. *)
Definition sanitized (title : str) : str :=
  strip (sub_spaces (sub_unsafe (sub_tags title))).

Definition clean_filename (title : str) : str :=
  let title := sanitized title in
  if 100 <? length title then take 100 title else title.

(** Decidable observations on a [str]. *)
Definition starts_with_space (s : str) : bool :=
  match s with
  | c :: _ => isspace c
  | [] => false
  end.

Definition ends_with_space (s : str) : bool := starts_with_space (rev s).

Fixpoint has_space_run (s : str) : bool :=
  match s with
  | c :: t =>
      match t with
      | d :: _ => isspace c && isspace d || has_space_run t
      | [] => false
      end
  | [] => false
  end.

Definition has_unsafe (s : str) : bool := existsb is_unsafe s.

(** ** The node tree of the markup parser

    What [BeautifulSoup(html, 'html.parser')] hands back, as far as the
    program looks at it: tags with a name and contents, text nodes, and the
    string kinds that [get_text] leaves out (comments, doctypes and the
    like). A soup is the contents of the document object. *)

#[warnings="-register-all"] Inductive node : Type :=
| NavigableString (text : str)
| SpecialString (text : str)
| Tag (name : str) (contents : list node).

Definition soup := list node.

(** Pre-order walk: [element.descendants], the element itself first. *)
Fixpoint self_and_descendants (n : node) : list node :=
  n :: match n with
       | Tag _ cs => flat_map self_and_descendants cs
       | _ => []
       end.

Definition descendants (s : soup) : list node := flat_map self_and_descendants s.

(** [element.get_text()]: the text nodes below the element, joined. *)
Fixpoint get_text (n : node) : str :=
  match n with
  | NavigableString t => t
  | SpecialString _ => []
  | Tag _ cs => flat_map get_text cs
  end.

(** [soup.get_text()] *)
Definition soup_get_text (s : soup) : str := flat_map get_text s.

Fixpoint str_eqb (a b : str) : bool :=
  match a, b with
  | [], [] => true
  | x :: a', y :: b' => char_eqb x y && str_eqb a' b'
  | _, _ => false
  end.

Definition tag_named (names : list str) (n : node) : bool :=
  match n with
  | Tag nm _ => existsb (str_eqb nm) names
  | _ => false
  end.

(** [soup.find_all(names)], in document order. *)
Definition find_all (names : list str) (s : soup) : list node :=
  List.filter (tag_named names) (descendants s).

(** [soup.find(name)] *)
Definition find (name : str) (s : soup) : option node :=
  head (find_all [name] s).

(** [s.startswith(p)], giving back what follows [p]. *)
Fixpoint after_prefix (p s : str) : option str :=
  match p, s with
  | [], _ => Some s
  | x :: p', y :: s' => if char_eqb x y then after_prefix p' s' else None
  | _ :: _, [] => None
  end.

Definition nonblank (s : str) : bool :=
  match s with
  | [] => false
  | _ :: _ => true
  end.

Section TitleResolver.

(** [str.lower] and the Unicode decimal-digit table behind [\d]. *)
Variable lower : str -> str.
Variable isdecimal : char -> bool.

Definition starts_with_digit (s : str) : bool :=
  match s with
  | d :: _ => isdecimal d
  | [] => false
  end.

(** [\s+\d+] at the head of [s]: one white-space character, then either a
    digit or the same again. *)
Fixpoint spaces_digits (s : str) : bool :=
  match s with
  | c :: t => isspace c && (starts_with_digit t || spaces_digits t)
  | [] => false
  end.

(** [re.match(r'^(chapter|ch\.?)\s+\d+', s)], the branches tried in the
    order of the pattern. *)
Definition re_match_chapter (s : str) : bool :=
  match after_prefix (py "chapter") s with
  | Some r => spaces_digits r
  | None => false
  end
  || match after_prefix (py "ch") s with
     | Some r =>
         match after_prefix (py ".") r with
         | Some r' => spaces_digits r'
         | None => false
         end
         || spaces_digits r
     | None => false
     end.

(** One turn of the first loop: [soup.find(tag)], kept when its stripped
    text is not empty. *)
Definition heading_title (s : soup) (tag : str) : option str :=
  match find tag s with
  | Some element =>
      let t := strip (get_text element) in
      if nonblank t then Some t else None
  | None => None
  end.

Fixpoint first_heading (s : soup) (tags : list str) : option str :=
  match tags with
  | [] => None
  | tag :: rest =>
      match heading_title s tag with
      | Some t => Some t
      | None => first_heading s rest
      end
  end.

(** The second loop, over [soup.find_all(['p', 'div', 'span'])]. *)
Fixpoint first_chapter_line (elements : list node) : option str :=
  match elements with
  | [] => None
  | element :: rest =>
      let text := strip (get_text element) in
      if re_match_chapter (lower text) then Some text
      else first_chapter_line rest
  end.

Definition heading_tags : list str := [py "h1"; py "h2"; py "h3"; py "title"].
Definition block_tags : list str := [py "p"; py "div"; py "span"].

(** [EPUBProcessor.extract_title_from_content] *)
Definition extract_title_from_content (s : soup) : str :=
  match first_heading s heading_tags with
  | Some t => t
  | None =>
      match first_chapter_line (find_all block_tags s) with
      | Some text => text
      | None => py "Untitled Chapter"
      end
  end.

End TitleResolver.

(** The two tables cut down to ASCII, to run the resolver on ASCII text. *)
Definition ascii_lower (s : str) : str :=
  List.map (fun c => if ((65 <=? c) && (c <=? 90))%N then (c + 32)%N else c) s.

Definition ascii_isdecimal (c : char) : bool := ((48 <=? c) && (c <=? 57))%N.

(** ** Exceptions, and the two kinds of computation of the program *)

(** The [Exception] instances the program meets.  [LoadFailure e] is
    [Exception(f"Failed to load EPUB file: {e}")]. *)
Inductive exn : Type :=
| IndexError
| KeyError
| TypeError
| UnicodeDecodeError
| OSError (detail : str)
| OtherError (detail : str)
| LoadFailure (cause : exn).

(** A call that returns or raises. *)
Inductive result (A : Type) : Type :=
| Ok (a : A)
| Raise (e : exn).

Arguments Ok {A} a.
Arguments Raise {A} e.

Definition rbind {A B : Type} (m : result A) (k : A -> result B) : result B :=
  match m with
  | Ok a => k a
  | Raise e => Raise e
  end.

(** [try: m  except (IndexError, KeyError): h] *)
Definition except_index_key {A : Type} (m : result A) (h : result A) : result A :=
  match m with
  | Raise IndexError | Raise KeyError => h
  | other => other
  end.

(** What [print] writes, one constructor per call site of the source. *)
Inductive line : Type :=
| Processing_EPUB (epub_path : str)
| Loaded_EPUB (title : str)
| Found_items_in_spine (n : nat)
| Skipping_too_short (i : nat) (chars : nat)
| Skipping_no_content (i : nat)
| Processed (title : str)
| Error_processing_item (i : nat) (e : exn)
| Saving_chapters_to (output_dir : str)
| Saved (filename : str)
| Error_saving (filename : str) (e : exn)
| Completed (n : nat) (output_dir : str)
| Created_index
| No_chapters_found
| Error_file_not_found (epub_file : str)
| Error_bad_extension (epub_file : str)
| Error (e : exn).

(** The calls made to the file system. *)
Inductive fs_op : Type :=
| Mkdir_exist_ok (path : str)
| Write_text (path : str) (data : str).

(** The state the run threads: standard output so far and the file-system
    calls so far, oldest first. *)
Record world : Type := World { stdout : list line; fs_calls : list fs_op }.

Definition M (A : Type) : Type := world -> result A * world.

Definition ret {A : Type} (a : A) : M A := fun w => (Ok a, w).

Definition raise {A : Type} (e : exn) : M A := fun w => (Raise e, w).

Definition bind {A B : Type} (m : M A) (k : A -> M B) : M B :=
  fun w =>
    match m w with
    | (Ok a, w') => k a w'
    | (Raise e, w') => (Raise e, w')
    end.

(** [try: m  except Exception as e: h e].  What [m] printed or wrote before
    it raised stays. *)
Definition try_except {A : Type} (m : M A) (h : exn -> M A) : M A :=
  fun w =>
    match m w with
    | (Ok a, w') => (Ok a, w')
    | (Raise e, w') => h e w'
    end.

Definition lift {A : Type} (r : result A) : M A := fun w => (r, w).

Definition print (l : line) : M unit :=
  fun w => (Ok tt, World (stdout w ++ [l]) (fs_calls w)).

(** The world once [l] has been printed. *)
Definition said (w : world) (l : line) : world :=
  World (stdout w ++ [l]) (fs_calls w).

Declare Scope py_scope.
Delimit Scope py_scope with python.

Notation "x <- m ;; k" := (bind m (fun x => k))
  (at level 100, m at next level, right associativity) : py_scope.
Notation "m ;; k" := (bind m (fun _ => k))
  (at level 100, right associativity) : py_scope.
Notation "x <~ m ;; k" := (rbind m (fun x => k))
  (at level 100, m at next level, right associativity) : py_scope.

Local Open Scope py_scope.

(** ** The container, as ebooklib presents it *)

Inductive payload : Type :=
| Bytes (b : list Byte.byte)
| Text (s : str).

(** An item of the book. [is_EpubHtml] is [isinstance(item, epub.EpubHtml)]. *)
Record item : Type := Item {
  get_id : str;
  is_EpubHtml : bool;
  get_content : result payload
}.

(** A value ebooklib stores for a metadata element: its text, or [None]
    when the element is empty. *)
Inductive pyvalue : Type :=
| PyStr (s : str)
| PyNone.

(** [f"{v}"] *)
Definition format_value (v : pyvalue) : str :=
  match v with
  | PyStr s => s
  | PyNone => py "None"
  end.

(** A metadata entry: the value and its attributes. *)
Definition meta_value : Type := pyvalue * list (str * str).

Record book : Type := Book {
  get_metadata : str -> str -> result (list meta_value);
  spine : list (str * str);
  get_items : list item
}.

(** [xs[0][0]] on what [get_metadata] returned. *)
Definition first_first (xs : list meta_value) : result pyvalue :=
  match xs with
  | [] => Raise IndexError
  | x :: _ => Ok (fst x)
  end.

(** [EPUBProcessor.get_spine_items] *)
Definition get_spine_items (b : book) : list item :=
  flat_map
    (fun entry =>
       match List.find (fun book_item => str_eqb (get_id book_item) (fst entry))
                       (get_items b) with
       | Some it => if is_EpubHtml it then [it] else []
       | None => []
       end)
    (spine b).

(** ** [EPUBProcessor.html_to_markdown] *)

(** [element.decompose()] for every element of [soup(names)]. *)
Fixpoint decompose_named (names : list str) (n : node) : list node :=
  match n with
  | Tag nm cs =>
      if existsb (str_eqb nm) names then []
      else [Tag nm (flat_map (decompose_named names) cs)]
  | other => [other]
  end.

Definition decompose_all (names : list str) (s : soup) : soup :=
  flat_map (decompose_named names) s.

(** What a run of [run] newlines becomes under [\n{3,}] -> two newlines. *)
Definition newline_run (run : nat) : str :=
  repeat NL (if 3 <=? run then 2 else run).

(** [re.sub(r'\n{3,}', '\n\n', s)]: [run] is the length of the run of
    newlines that ends just before [s]. *)
Fixpoint sub_newlines_from (run : nat) (s : str) : str :=
  match s with
  | [] => newline_run run
  | c :: t =>
      if char_eqb c NL then sub_newlines_from (S run) t
      else newline_run run ++ c :: sub_newlines_from 0 t
  end.

Definition sub_newlines (s : str) : str := sub_newlines_from 0 s.

(** The last two statements of [html_to_markdown]. *)
Definition normalize_blank_lines (markdown_content : str) : str :=
  strip (sub_newlines markdown_content).

(** Does [s] hold three newlines in a row? *)
Fixpoint has_newline_run3 (s : str) : bool :=
  match s with
  | a :: t =>
      match t with
      | b :: c :: _ =>
          char_eqb a NL && char_eqb b NL && char_eqb c NL || has_newline_run3 t
      | _ => false
      end
  | [] => false
  end.

(** ** Decimal formatting of positions *)

Fixpoint uint_chars (d : Decimal.uint) : str :=
  match d with
  | Decimal.Nil => []
  | Decimal.D0 d => 48%N :: uint_chars d
  | Decimal.D1 d => 49%N :: uint_chars d
  | Decimal.D2 d => 50%N :: uint_chars d
  | Decimal.D3 d => 51%N :: uint_chars d
  | Decimal.D4 d => 52%N :: uint_chars d
  | Decimal.D5 d => 53%N :: uint_chars d
  | Decimal.D6 d => 54%N :: uint_chars d
  | Decimal.D7 d => 55%N :: uint_chars d
  | Decimal.D8 d => 56%N :: uint_chars d
  | Decimal.D9 d => 57%N :: uint_chars d
  end.

(** [f"{i}"] *)
Definition str_of_nat (i : nat) : str := uint_chars (Nat.to_uint i).

(** [f"{i:02d}"]: zeros on the left up to width two. *)
Definition fmt_02d (i : nat) : str :=
  let digits := str_of_nat i in
  repeat 48%N (2 - length digits) ++ digits.

(** [output_dir / filename] for a relative [filename]. *)
Definition path_join (dir name : str) : str := dir ++ py "/" ++ name.

(** A chapter: [(title, content)]. *)
Definition chapter : Type := str * str.

(** ** [EPUBProcessor.get_book_info] *)

Definition DC : str := py "DC".

(** [', '.join(parts)] *)
Fixpoint join_comma (parts : list str) : str :=
  match parts with
  | [] => []
  | [p] => p
  | p :: rest => p ++ py ", " ++ join_comma rest
  end.

(** What [str.join] asks of its argument: every item is a [str]; [None]
    among them is a [TypeError]. *)
Fixpoint str_items (vs : list pyvalue) : result (list str) :=
  match vs with
  | [] => Ok []
  | PyStr s :: rest => rest' <~ str_items rest ;; Ok (s :: rest')
  | PyNone :: _ => Raise TypeError
  end.

Definition Unknown : str := py "Unknown".

Definition get_book_info (self_book : option book) : result (gmap string pyvalue) :=
  match self_book with
  | None => Ok ∅
  | Some b =>
      let info : gmap string pyvalue := ∅ in
      info <~ except_index_key
                (xs <~ get_metadata b DC (py "title") ;;
                 v <~ first_first xs ;;
                 Ok (<["title" := v]> info))
                (Ok (<["title" := PyStr Unknown]> info)) ;;
      info <~ except_index_key
                (xs <~ get_metadata b DC (py "creator") ;;
                 parts <~ str_items (List.map fst xs) ;;
                 Ok (<["author" := PyStr (join_comma parts)]> info))
                (Ok (<["author" := PyStr Unknown]> info)) ;;
      info <~ except_index_key
                (xs <~ get_metadata b DC (py "language") ;;
                 v <~ first_first xs ;;
                 Ok (<["language" := v]> info))
                (Ok (<["language" := PyStr Unknown]> info)) ;;
      Ok info
  end.

(** [xs[0][0]], or the placeholder when there is no first value. *)
Definition first_or_unknown (xs : list meta_value) : pyvalue :=
  match xs with
  | [] => PyStr Unknown
  | x :: _ => fst x
  end.

(** [info[key]] *)
Definition getitem (info : gmap string pyvalue) (key : string) : result pyvalue :=
  match info !! key with
  | Some v => Ok v
  | None => Raise KeyError
  end.

(** ** The pipeline and the writers *)

(** A call that may also end the process: [SystemExit] is not an
    [Exception], and no handler of the program catches it. *)
Inductive or_exit (A : Type) : Type :=
| Normally (a : A)
| SystemExit (status : nat).

Arguments Normally {A} a.
Arguments SystemExit {A} status.

Section Pipeline.

(** The collaborators: the case and digit tables, the UTF-8 codec,
    BeautifulSoup's parser and serializer, markdownify with the options of
    the source, ebooklib's reader, and the file system, which decides from
    the calls made so far whether the next one raises. *)
Variable lower : str -> str.
Variable isdecimal : char -> bool.
Variable decode_utf8 : list Byte.byte -> result str.
Variable BeautifulSoup : str -> result soup.
Variable soup_str : soup -> str.
Variable md : str -> result str.
Variable read_epub : str -> result book.
Variable fs_raises : list fs_op -> fs_op -> option exn.

Definition fs_call (op : fs_op) : M unit :=
  fun w =>
    let w' := World (stdout w) (fs_calls w ++ [op]) in
    match fs_raises (fs_calls w) op with
    | Some e => (Raise e, w')
    | None => (Ok tt, w')
    end.

Definition html_to_markdown (html_content : str) : result str :=
  s <~ BeautifulSoup html_content ;;
  let s := decompose_all [py "script"; py "style"; py "meta"; py "link"] s in
  markdown_content <~ md (soup_str s) ;;
  Ok (normalize_blank_lines markdown_content).

(** The body of the [try] in [process_chapters], for item number [i]:
    the chapter to append, if any. *)
Definition process_item (i : nat) (it : item) : M (option chapter) :=
  content <- lift (get_content it) ;;
  html_content <- lift (match content with
                        | Bytes b => decode_utf8 b
                        | Text s => Ok s
                        end) ;;
  s <- lift (BeautifulSoup html_content) ;;
  let title := extract_title_from_content lower isdecimal s in
  let text_content := strip (soup_get_text s) in
  if length text_content <? 100 then
    print (Skipping_too_short i (length text_content)) ;;
    ret None
  else
    markdown_content <- lift (html_to_markdown html_content) ;;
    if negb (nonblank (strip markdown_content)) then
      print (Skipping_no_content i) ;;
      ret None
    else
      print (Processed title) ;;
      ret (Some (title, markdown_content)).

(** The [for] loop of [process_chapters], from item number [i] on. *)
Fixpoint process_items (i : nat) (spine_items : list item)
                       (chapters : list chapter) : M (list chapter) :=
  match spine_items with
  | [] => ret chapters
  | it :: rest =>
      r <- try_except (process_item i it)
                      (fun e => print (Error_processing_item i e) ;; ret None) ;;
      process_items (S i) rest
        match r with
        | Some c => chapters ++ [c]
        | None => chapters
        end
  end.

(** [EPUBProcessor.process_chapters] *)
Definition process_chapters (b : book) : M (list chapter) :=
  let spine_items := get_spine_items b in
  print (Found_items_in_spine (length spine_items)) ;;
  process_items 1 spine_items [].

(** The [for] loop of [save_chapters], from position [i] on. *)
Fixpoint save_each (output_dir : str) (i : nat) (chapters : list chapter) : M unit :=
  match chapters with
  | [] => ret tt
  | (title, content) :: rest =>
      let clean_title := clean_filename title in
      let filename := fmt_02d i ++ py "_" ++ clean_title ++ py ".md" in
      let filepath := path_join output_dir filename in
      let full_content := py "# " ++ title ++ [NL; NL] ++ content in
      try_except (fs_call (Write_text filepath full_content) ;;
                  print (Saved filename))
                 (fun e => print (Error_saving filename e)) ;;
      save_each output_dir (S i) rest
  end.

(** [EPUBProcessor.save_chapters] *)
Definition save_chapters (output_dir : str) (chapters : list chapter) : M unit :=
  fs_call (Mkdir_exist_ok output_dir) ;;
  print (Saving_chapters_to output_dir) ;;
  save_each output_dir 1 chapters ;;
  print (Completed (length chapters) output_dir).

(** The [for] loop of [create_index_file], from position [i] on. *)
Fixpoint index_each (i : nat) (chapters : list chapter) (index_content : str) : str :=
  match chapters with
  | [] => index_content
  | (title, _) :: rest =>
      let clean_title := clean_filename title in
      let filename := fmt_02d i ++ py "_" ++ clean_title ++ py ".md" in
      index_each (S i) rest
        (index_content ++ str_of_nat i ++ py ". [" ++ title ++ py "](./"
           ++ filename ++ py ")" ++ [NL])
  end.

Definition index_header (title author language : str) (n : nat) : str :=
  py "# " ++ title ++ [NL; NL]
  ++ py "**Author:** " ++ author ++ py "  " ++ [NL]
  ++ py "**Language:** " ++ language ++ py "  " ++ [NL]
  ++ py "**Chapters:** " ++ str_of_nat n ++ [NL; NL]
  ++ py "## Table of Contents" ++ [NL; NL].

(** [EPUBProcessor.create_index_file] *)
Definition create_index_file (self_book : option book) (output_dir : str)
                             (chapters : list chapter) : M unit :=
  info <- lift (get_book_info self_book) ;;
  title <- lift (getitem info "title") ;;
  author <- lift (getitem info "author") ;;
  language <- lift (getitem info "language") ;;
  let index_content :=
    index_header (format_value title) (format_value author) (format_value language)
                 (length chapters) in
  let index_content := index_each 1 chapters index_content in
  let index_path := path_join output_dir (py "README.md") in
  fs_call (Write_text index_path index_content) ;;
  print Created_index.

(** [EPUBProcessor.load_epub]; the book it stores in [self.book]. *)
Definition load_epub (epub_path : str) : M book :=
  try_except
    (b <- lift (read_epub epub_path) ;;
     xs <- lift (get_metadata b DC (py "title")) ;;
     title <- lift (first_first xs) ;;
     print (Loaded_EPUB (format_value title)) ;;
     ret b)
    (fun e => raise (LoadFailure e)).

(** [EPUBProcessor.process] *)
Definition process (epub_path output_dir : str) : M unit :=
  print (Processing_EPUB epub_path) ;;
  b <- load_epub epub_path ;;
  chapters <- process_chapters b ;;
  match chapters with
  | [] => print No_chapters_found ;; ret tt
  | _ :: _ =>
      save_chapters output_dir chapters ;;
      create_index_file (Some b) output_dir chapters
  end.

(** The parsed command line, with what [pathlib] computes from the
    positional argument. *)
Record args : Type := Args {
  epub_file : str;
  epub_file_exists : bool;
  epub_file_suffix : str;
  default_output_dir : str;
  output : option str
}.

(** [main] from the validation of the input file on (lines 257 to 281),
    giving the value it returns. *)
Definition main_after_parse (a : args) : M nat :=
  if negb (epub_file_exists a) then
    print (Error_file_not_found (epub_file a)) ;; ret 1
  else if negb (str_eqb (lower (epub_file_suffix a)) (py ".epub")) then
    print (Error_bad_extension (epub_file a)) ;; ret 1
  else
    try_except
      (let output_dir := match output a with
                         | Some o => o
                         | None => default_output_dir a
                         end in
       process (epub_file a) output_dir ;;
       ret 0)
      (fun e => print (Error e) ;; ret 1).

(** [main]. [parsed] is what [parser.parse_args()] does with the command
    line: it returns the namespace, or it raises [SystemExit], with status 2
    for a command line it refuses and 0 after the help; the call is outside
    the [try], so that exit leaves [main]. *)
Definition main (parsed : or_exit args) : world -> or_exit (result nat) * world :=
  fun w =>
    match parsed with
    | SystemExit status => (SystemExit status, w)
    | Normally a => let (r, w') := main_after_parse a w in (Normally r, w')
    end.


End Pipeline.

(** ** Two readings of the chapter pattern, and sample documents *)

(** The pattern as the code matches it: one of the three prefixes, then at
    least one white-space character, then a decimal digit; anything may
    follow. *)
Definition chapter_pattern (isdecimal : char -> bool) (s : str) : Prop :=
  exists p ws d rest,
    (p = py "chapter" \/ p = py "ch." \/ p = py "ch") /\
    ws <> [] /\ forallb isspace ws = true /\ isdecimal d = true /\
    s = p ++ ws ++ d :: rest.

(** The pattern as the specification words it: the word chapter or ch, an
    optional period, then one or more digits. *)
Definition claimed_chapter_pattern (isdecimal : char -> bool) (s : str) : bool :=
  let period_digits r :=
    match after_prefix (py ".") r with
    | Some r' => starts_with_digit isdecimal r'
    | None => false
    end
    || starts_with_digit isdecimal r in
  match after_prefix (py "chapter") s with
  | Some r => period_digits r
  | None => false
  end
  || match after_prefix (py "ch") s with
     | Some r => period_digits r
     | None => false
     end.

(** [<p>ch.3</p>] *)
Definition soup_ch_period_3 : soup := [Tag (py "p") [NavigableString (py "ch.3")]].

(** [<div><!-- x --><span> Ch.  7 </span></div>] under an empty [<h1>]. *)
Definition soup_ch_7 : soup :=
  [Tag (py "h1") [];
   Tag (py "div") [SpecialString (py " x ");
                   Tag (py "span") [NavigableString (py " Ch.  7 ")]]].

(** ** The outcome of one item, apart from output and position

    A second view of the body of the loop of [process_chapters], one result
    per item as the design notes ask for; [process_item_outcome] below
    proves that the loop body computes it. *)

Inductive outcome : Type :=
| Accepted (c : chapter)
| Too_short (chars : nat)
| No_content
| Failed (e : exn).

Section Outcome.

Variable lower : str -> str.
Variable isdecimal : char -> bool.
Variable decode_utf8 : list Byte.byte -> result str.
Variable BeautifulSoup : str -> result soup.
Variable soup_str : soup -> str.
Variable md : str -> result str.

Definition item_outcome (it : item) : outcome :=
  match get_content it with
  | Raise e => Failed e
  | Ok content =>
      match (match content with
             | Bytes b => decode_utf8 b
             | Text s => Ok s
             end) with
      | Raise e => Failed e
      | Ok html_content =>
          match BeautifulSoup html_content with
          | Raise e => Failed e
          | Ok s =>
              let chars := length (strip (soup_get_text s)) in
              if chars <? 100 then Too_short chars
              else
                match html_to_markdown BeautifulSoup soup_str md html_content with
                | Raise e => Failed e
                | Ok markdown_content =>
                    if nonblank (strip markdown_content)
                    then Accepted (extract_title_from_content lower isdecimal s,
                                   markdown_content)
                    else No_content
                end
          end
      end
  end.

(** The chapters of the accepted items, in order. *)
Definition accepted_chapters (items : list item) : list chapter :=
  flat_map (fun it => match item_outcome it with
                      | Accepted c => [c]
                      | _ => []
                      end) items.

End Outcome.

(** The line printed for item number [i]. *)
Definition outcome_line (i : nat) (o : outcome) : line :=
  match o with
  | Accepted c => Processed (fst c)
  | Too_short chars => Skipping_too_short i chars
  | No_content => Skipping_no_content i
  | Failed e => Error_processing_item i e
  end.

(** The paths of the [write_text] calls, oldest first. *)
Definition written_paths (calls : list fs_op) : list str :=
  flat_map (fun op => match op with
                      | Write_text p _ => [p]
                      | Mkdir_exist_ok _ => []
                      end) calls.

(** The file name under which chapter number [i] with this title is saved,
    and the line of the table of contents that links to a file name. *)
Definition chapter_filename (i : nat) (title : str) : str :=
  fmt_02d i ++ py "_" ++ clean_filename title ++ py ".md".

Definition toc_line (i : nat) (title filename : str) : str :=
  str_of_nat i ++ py ". [" ++ title ++ py "](./" ++ filename ++ py ")" ++ [NL].

(** The write attempted for the chapter at position [i]. *)
Definition chapter_write (dir : str) (ic : nat * chapter) : fs_op :=
  Write_text (path_join dir (chapter_filename (fst ic) (fst (snd ic))))
             (py "# " ++ fst (snd ic) ++ [NL; NL] ++ snd (snd ic)).

(** Reading a position back from the digits in front of a file name. *)
Definition digit_value (c : char) : option nat :=
  if ((48 <=? c) && (c <=? 57))%N then Some (N.to_nat (c - 48)) else None.

Fixpoint leading_number (acc : nat) (s : str) : nat :=
  match s with
  | [] => acc
  | c :: t =>
      match digit_value c with
      | Some v => leading_number (10 * acc + v) t
      | None => acc
      end
  end.

Definition filename_number (filename : str) : nat := leading_number 0 filename.

(** [enumerate(l, i)] *)
Fixpoint enumerate {A : Type} (i : nat) (l : list A) : list (nat * A) :=
  match l with
  | [] => []
  | x :: t => (i, x) :: enumerate (S i) t
  end.

(** The lines printed for the items numbered from [i] on. *)
Definition outcome_lines (i : nat) (os : list outcome) : list line :=
  List.map (fun io => outcome_line (fst io) (snd io)) (enumerate i os).

(** ** Sample collaborators and containers

    Stand-ins that answer as the libraries do on the few documents used
    below, so that the model can be run. *)

Module Sample.

(** UTF-8 on ASCII bytes; anything else is refused, as is the lone byte
    [0xff] used below. *)
Definition decode_utf8 (b : list Byte.byte) : result str :=
  if forallb (fun x => (Byte.to_N x <? 128)%N) b
  then Ok (List.map Byte.to_N b)
  else Raise UnicodeDecodeError.

Definition lookup {A : Type} (table : list (str * A)) (key : str) : result A :=
  match List.find (fun kv => str_eqb (fst kv) key) table with
  | Some kv => Ok (snd kv)
  | None => Raise (OtherError key)
  end.

(** A document with a heading and one paragraph: its markup, its tree and
    its rendering. *)
Definition html_of (title body : str) : str :=
  py "<h1>" ++ title ++ py "</h1><p>" ++ body ++ py "</p>".

Definition soup_of (title body : str) : soup :=
  [Tag (py "h1") [NavigableString title]; Tag (py "p") [NavigableString body]].

Definition markdown_of (title body : str) : str :=
  py "# " ++ title ++ [NL; NL] ++ body ++ [NL; NL].

(** With a heading of nine characters, 150 characters of plain text. *)
Definition long_text : str := repeat (chr "a") 141.

Definition documents : list (str * str) :=
  [(py "Chapter 1", long_text); (py "Cover", py "cover");
   (py "Chapter 2", long_text); (py "Chapter 3", long_text);
   (py "Chapter 4", long_text)].

Definition BeautifulSoup : str -> result soup :=
  lookup (List.map (fun d => (html_of (fst d) (snd d), soup_of (fst d) (snd d)))
                   documents).

(** [str(soup)] for trees without attributes. *)
Fixpoint node_str (n : node) : str :=
  match n with
  | NavigableString t => t
  | SpecialString t => py "<!--" ++ t ++ py "-->"
  | Tag nm cs =>
      py "<" ++ nm ++ py ">" ++ flat_map node_str cs ++ py "</" ++ nm ++ py ">"
  end.

Definition soup_str (s : soup) : str := flat_map node_str s.

Definition md : str -> result str :=
  lookup (List.map (fun d => (html_of (fst d) (snd d), markdown_of (fst d) (snd d)))
                   documents).

(** ebooklib's [get_metadata]: the values under the name, the empty list
    when the name is absent, [KeyError] for an unknown namespace. *)
Definition metadata (fields : list (str * list meta_value)) (ns name : str)
  : result (list meta_value) :=
  if str_eqb ns DC then
    match List.find (fun kv => str_eqb (fst kv) name) fields with
    | Some kv => Ok (snd kv)
    | None => Ok []
    end
  else Raise KeyError.

Definition html_item (id : str) (d : str * str) : item :=
  Item id true (Ok (Text (html_of (fst d) (snd d)))).

Definition ids : list str := [py "c1"; py "c2"; py "c3"; py "c4"; py "c5"].

Definition full_fields : list (str * list meta_value) :=
  [(py "title", [(PyStr (py "Test Book"), [])]);
   (py "creator", [(PyStr (py "A. Author"), [])]);
   (py "language", [(PyStr (py "en"), [])])].

(** Five fragments in reading order, the second one a cover page. *)
Definition book_five : book :=
  Book (metadata full_fields)
       (List.map (fun id => (id, py "yes")) ids)
       (List.map (fun p => html_item (fst p) (snd p)) (zip ids documents)).

(** The same container without a title, and without a creator. *)
Definition book_untitled : book :=
  Book (metadata [(py "creator", [(PyStr (py "A. Author"), [])]);
                  (py "language", [(PyStr (py "en"), [])])])
       (spine book_five) (get_items book_five).

Definition book_anonymous : book :=
  Book (metadata [(py "title", [(PyStr (py "Test Book"), [])]);
                  (py "language", [(PyStr (py "en"), [])])])
       (spine book_five) (get_items book_five).

(** A container whose only fragment is the cover page. *)
Definition book_cover_only : book :=
  Book (metadata full_fields) [(py "c2", py "yes")] (get_items book_five).

(** A container of three fragments, the second of which is not UTF-8. *)
Definition book_bad_bytes : book :=
  Book (metadata full_fields)
       [(py "c1", py "yes"); (py "bad", py "yes"); (py "c3", py "yes")]
       (Item (py "bad") true (Ok (Bytes [Byte.xff])) :: get_items book_five).

Definition read_epub (b : book) (path : str) : result book := Ok b.

Definition out_dir : str := py "book_chapters".

Definition cli : args :=
  Args (py "book.epub") true (py ".epub") out_dir None.

(** A file system on which every call succeeds, one on which the first
    chapter file cannot be written, and one on which [README.md] cannot. *)
Definition fs_fine (before : list fs_op) (op : fs_op) : option exn := None.

Definition fs_first_chapter_denied (before : list fs_op) (op : fs_op) : option exn :=
  match op with
  | Write_text p _ =>
      if str_eqb p (path_join out_dir (py "01_Chapter 1.md"))
      then Some (OSError (py "Permission denied"))
      else None
  | Mkdir_exist_ok _ => None
  end.

Definition fs_readme_denied (before : list fs_op) (op : fs_op) : option exn :=
  match op with
  | Write_text p _ =>
      if str_eqb p (path_join out_dir (py "README.md"))
      then Some (OSError (py "Permission denied"))
      else None
  | Mkdir_exist_ok _ => None
  end.

Definition run_main (b : book) (fs : list fs_op -> fs_op -> option exn)
  : or_exit (result nat) * world :=
  main ascii_lower ascii_isdecimal decode_utf8 BeautifulSoup soup_str md
       (read_epub b) fs (Normally cli) (World [] []).

End Sample.

(** ** Further observations *)

(** Is every white-space character of [s] the plain space? *)
Definition spaces_are_SP (s : str) : bool :=
  forallb (fun c => negb (isspace c) || char_eqb c SP) s.

(** The text of [s] without its newlines. *)
Definition without_newlines (s : str) : str :=
  List.filter (fun c => negb (char_eqb c NL)) s.

(** The line [save_chapters] prints for each chapter: whether its write went
    through, given the calls made before it. *)
Fixpoint save_report (fs_raises : list fs_op -> fs_op -> option exn) (dir : str)
    (before : list fs_op) (numbered : list (nat * chapter)) : list line :=
  match numbered with
  | [] => []
  | ic :: rest =>
      match fs_raises before (chapter_write dir ic) with
      | Some e => Error_saving (chapter_filename (fst ic) (fst (snd ic))) e
      | None => Saved (chapter_filename (fst ic) (fst (snd ic)))
      end :: save_report fs_raises dir (before ++ [chapter_write dir ic]) rest
  end.

(** Does a metadata query end in a way [get_book_info] copes with? *)
Definition tolerated (r : result (list meta_value)) : bool :=
  match r with
  | Ok _ | Raise IndexError | Raise KeyError => true
  | Raise _ => false
  end.

(** The entry [get_book_info] makes for title and language, and for author. *)
Definition value_or_unknown (r : result (list meta_value)) : pyvalue :=
  match r with
  | Ok (x :: _) => fst x
  | _ => PyStr Unknown
  end.

(** The texts of the creators, when every one of them has a text. *)
Definition creator_texts (r : result (list meta_value)) : result (list str) :=
  match r with
  | Ok xs => str_items (List.map fst xs)
  | Raise e => Raise e
  end.

Definition authors_or_unknown (r : result (list meta_value)) : pyvalue :=
  match creator_texts r with
  | Ok parts => PyStr (join_comma parts)
  | Raise _ => PyStr Unknown
  end.

(** Does the entry have a text, and does no creator lack one? *)
Definition has_text (x : meta_value) : bool :=
  match fst x with
  | PyStr _ => true
  | PyNone => false
  end.

Definition creators_have_text (r : result (list meta_value)) : bool :=
  match r with
  | Ok xs => forallb has_text xs
  | Raise _ => true
  end.

(** A write of a file directly inside [dir]. *)
Definition child_write (dir : str) (op : fs_op) : Prop :=
  exists name data, op = Write_text (path_join dir name) data /\ has_unsafe name = false.

(** A container whose metadata has no Dublin Core namespace at all. *)
Definition book_without_namespace : book :=
  Book (fun _ _ => Raise KeyError) [] [].

(** ** The title chain, step by step

    The fallback chain written as an ordered list of steps, each giving a
    title or nothing, the first success winning; it is proved below that
    [extract_title_from_content] computes it. *)

Definition is_element (name : str) (n : node) : bool :=
  match n with
  | Tag nm _ => str_eqb nm name
  | _ => false
  end.

(** The first node of a kind, in document order. *)
Definition first_element (name : str) (s : soup) : option node :=
  List.find (is_element name) (descendants s).

(** The text of the first node of the kind, if there is one and its text is
    not blank after trimming. *)
Definition heading_step (name : str) (s : soup) : option str :=
  match first_element name s with
  | Some e => if nonblank (strip (get_text e)) then Some (strip (get_text e)) else None
  | None => None
  end.

(** The trimmed text of the first paragraph, block or inline container, in
    document order, whose trimmed text matches the chapter pattern. *)
Definition chapter_step (lower : str -> str) (isdecimal : char -> bool) (s : soup)
  : option str :=
  match List.find
          (fun n => (is_element (py "p") n || is_element (py "div") n
                     || is_element (py "span") n)
                    && re_match_chapter isdecimal (lower (strip (get_text n))))
          (descendants s) with
  | Some e => Some (strip (get_text e))
  | None => None
  end.

Fixpoint first_success (steps : list (soup -> option str)) (s : soup) : option str :=
  match steps with
  | [] => None
  | step :: rest =>
      match step s with
      | Some t => Some t
      | None => first_success rest s
      end
  end.

Definition title_chain (lower : str -> str) (isdecimal : char -> bool) (s : soup) : str :=
  match first_success [heading_step (py "h1"); heading_step (py "h2");
                       heading_step (py "h3"); heading_step (py "title");
                       chapter_step lower isdecimal] s with
  | Some t => t
  | None => py "Untitled Chapter"
  end.

(** The other reading of the first non-blank node of a kind: the first among
    the nodes of the kind that are not blank. *)
Definition first_nonblank_element (name : str) (s : soup) : option node :=
  List.find (fun n => is_element name n && nonblank (strip (get_text n)))
            (descendants s).

(** [<h1> </h1><h1>Real</h1>] *)
Definition soup_blank_then_real : soup :=
  [Tag (py "h1") [NavigableString (py " ")];
   Tag (py "h1") [NavigableString (py "Real")]].

(** [<h1> </h1><div><h2> Two </h2><h1>Real</h1></div><title>T</title>] *)
Definition soup_blank_h1_then_h2 : soup :=
  [Tag (py "h1") [NavigableString (py " ")];
   Tag (py "div") [Tag (py "h2") [NavigableString (py " Two ")];
                   Tag (py "h1") [NavigableString (py "Real")]];
   Tag (py "title") [NavigableString (py "T")]].

(** ** The entries of [get_book_info], one [try] block each *)

(** The first block and the third: the first value, the placeholder when
    the query or the indexing raises [IndexError] or [KeyError]. *)
Definition first_value_entry (r : result (list meta_value)) : result pyvalue :=
  except_index_key (xs <~ r ;; first_first xs) (Ok (PyStr Unknown)).

(** The second block: the joined texts of the creators. *)
Definition author_entry (r : result (list meta_value)) : result pyvalue :=
  except_index_key
    (xs <~ r ;; parts <~ str_items (List.map fst xs) ;; Ok (PyStr (join_comma parts)))
    (Ok (PyStr Unknown)).

(** A container whose creator element is empty: ebooklib stores [None]. *)
Definition book_empty_creator : book :=
  Book (Sample.metadata [(py "title", [(PyStr (py "Test Book"), [])]);
                         (py "creator", [(PyNone, [])]);
                         (py "language", [(PyStr (py "en"), [])])])
       (spine Sample.book_five) (get_items Sample.book_five).

(** The write of the index, for the three values found in the dictionary. *)
Definition index_write (dir : str) (chapters : list chapter) (t a l : pyvalue) : fs_op :=
  Write_text (path_join dir (py "README.md"))
    (index_each 1 chapters
       (index_header (format_value t) (format_value a) (format_value l)
                     (length chapters))).

(** * Properties *)

(** ** Properties of the string helpers *)

Lemma isspace_SP : isspace SP = true.
Proof. reflexivity. Qed.

Lemma is_unsafe_SP : is_unsafe SP = false.
Proof. reflexivity. Qed.

Lemma is_unsafe_UNDERSCORE : is_unsafe UNDERSCORE = false.
Proof. reflexivity. Qed.

Lemma lstrip_split (s : str) :
  exists ws, s = ws ++ lstrip s /\ forallb isspace ws = true.
Proof.
  induction s as [|c t [ws [Hs Hws]]]; simpl.
  - exists []. split; reflexivity.
  - destruct (isspace c) eqn:Hc.
    + exists (c :: ws). simpl. rewrite Hc, Hws. split; [f_equal; exact Hs | reflexivity].
    + exists []. split; reflexivity.
Qed.

Lemma lstrip_no_lead (s : str) : starts_with_space (lstrip s) = false.
Proof.
  induction s as [|c t IH]; simpl; [reflexivity|].
  destruct (isspace c) eqn:Hc; [exact IH | simpl; exact Hc].
Qed.

Lemma lstrip_id (s : str) : starts_with_space s = false -> lstrip s = s.
Proof. destruct s as [|c t]; simpl; [reflexivity | intros ->; reflexivity]. Qed.

Lemma rstrip_split (s : str) :
  exists ws, s = rstrip s ++ ws /\ forallb isspace ws = true.
Proof.
  unfold rstrip. destruct (lstrip_split (rev s)) as [ws [Hs Hws]].
  exists (rev ws). split.
  - rewrite <- rev_app_distr, <- Hs, rev_involutive. reflexivity.
  - rewrite forallb_forall in *. intros x Hx. apply Hws, in_rev, Hx.
Qed.

Lemma strip_split (s : str) :
  exists a b, s = a ++ strip s ++ b.
Proof.
  destruct (lstrip_split s) as [a [Ha _]].
  destruct (rstrip_split (lstrip s)) as [b [Hb _]].
  exists a, b. unfold strip. rewrite <- Hb. exact Ha.
Qed.

Lemma rstrip_no_trail (s : str) : ends_with_space (rstrip s) = false.
Proof.
  unfold ends_with_space, rstrip. rewrite rev_involutive. apply lstrip_no_lead.
Qed.

Lemma rstrip_id (s : str) : ends_with_space s = false -> rstrip s = s.
Proof.
  unfold ends_with_space, rstrip. intros H. rewrite (lstrip_id _ H).
  apply rev_involutive.
Qed.

Lemma starts_with_space_prefix (a b : str) :
  starts_with_space (a ++ b) = false -> starts_with_space a = false.
Proof. destruct a; simpl; [reflexivity | tauto]. Qed.

Lemma rstrip_no_lead (s : str) :
  starts_with_space s = false -> starts_with_space (rstrip s) = false.
Proof.
  intros H. destruct (rstrip_split s) as [ws [Hs _]].
  rewrite Hs in H. eapply starts_with_space_prefix, H.
Qed.

Lemma strip_no_lead (s : str) : starts_with_space (strip s) = false.
Proof. apply rstrip_no_lead, lstrip_no_lead. Qed.

Lemma strip_no_trail (s : str) : ends_with_space (strip s) = false.
Proof. apply rstrip_no_trail. Qed.

Lemma strip_id (s : str) :
  starts_with_space s = false -> ends_with_space s = false -> strip s = s.
Proof. intros H1 H2. unfold strip. rewrite (lstrip_id _ H1). apply rstrip_id, H2. Qed.

Lemma strip_idempotent (s : str) : strip (strip s) = strip s.
Proof. apply strip_id; [apply strip_no_lead | apply strip_no_trail]. Qed.

(** A run of white space in a part is a run in the whole. *)
Lemma has_space_run_app_r (a b : str) :
  has_space_run (a ++ b) = false -> has_space_run b = false.
Proof.
  induction a as [|c t IH]; simpl; [tauto|].
  destruct (t ++ b) eqn:E; [|rewrite orb_false_iff; intros [_ H]; apply IH, H].
  intros _. destruct t; [simpl in E; subst b; reflexivity | discriminate].
Qed.

Lemma has_space_run_app_l (a b : str) :
  has_space_run (a ++ b) = false -> has_space_run a = false.
Proof.
  induction a as [|c t IH]; simpl; [reflexivity|].
  destruct t as [|d t']; [reflexivity|].
  change ((d :: t') ++ b) with (d :: (t' ++ b)) in *. cbv beta iota.
  rewrite !orb_false_iff. intros [H1 H2]. split; [exact H1 | apply IH, H2].
Qed.

Lemma has_space_run_strip (s : str) :
  has_space_run s = false -> has_space_run (strip s) = false.
Proof.
  intros H. destruct (strip_split s) as [a [b Hs]]. rewrite Hs in H.
  eapply has_space_run_app_l, has_space_run_app_r, H.
Qed.

Lemma has_space_run_take (n : nat) (s : str) :
  has_space_run s = false -> has_space_run (take n s) = false.
Proof.
  intros H. rewrite <- (take_drop n s) in H. eapply has_space_run_app_l, H.
Qed.

Lemma sub_spaces_from_tidy (s : str) : forall b,
  has_space_run (sub_spaces_from b s) = false /\
  (b = true -> starts_with_space (sub_spaces_from b s) = false).
Proof.
  induction s as [|c t IH]; intros b; simpl; [split; reflexivity|].
  destruct (isspace c) eqn:Hc.
  - destruct (IH true) as [H1 H2]. destruct b.
    + split; [exact H1 | intros _; apply H2; reflexivity].
    + split; [|discriminate]. simpl.
      specialize (H2 eq_refl).
      destruct (sub_spaces_from true t) as [|d r]; [reflexivity|].
      simpl in H2. change (isspace SP && isspace d || has_space_run (d :: r) = false).
      rewrite H2, andb_false_r. exact H1.
  - destruct (IH false) as [H1 _]. split.
    + destruct (sub_spaces_from false t) as [|d r]; [reflexivity|].
      change (isspace c && isspace d || has_space_run (d :: r) = false).
      rewrite Hc. exact H1.
    + intros _. simpl. exact Hc.
Qed.

Lemma sub_spaces_no_run (s : str) : has_space_run (sub_spaces s) = false.
Proof. apply sub_spaces_from_tidy. Qed.

Lemma has_unsafe_sub_unsafe (s : str) : has_unsafe (sub_unsafe s) = false.
Proof.
  unfold has_unsafe, sub_unsafe.
  induction s as [|c t IH]; cbn [List.map existsb]; [reflexivity|].
  rewrite IH, orb_false_r.
  destruct (is_unsafe c) eqn:Hc; [reflexivity | exact Hc].
Qed.

Lemma has_unsafe_sub_spaces (s : str) : forall b,
  has_unsafe s = false -> has_unsafe (sub_spaces_from b s) = false.
Proof.
  unfold has_unsafe.
  induction s as [|c t IH]; intros b; cbn [sub_spaces_from existsb]; [reflexivity|].
  rewrite orb_false_iff. intros [Hc Ht].
  destruct (isspace c), b; cbn [existsb]; rewrite ?Hc, ?is_unsafe_SP;
    cbn [orb]; apply IH, Ht.
Qed.

Lemma has_unsafe_app (a b : str) :
  has_unsafe (a ++ b) = has_unsafe a || has_unsafe b.
Proof. apply existsb_app. Qed.

Lemma has_unsafe_strip (s : str) :
  has_unsafe s = false -> has_unsafe (strip s) = false.
Proof.
  intros H. destruct (strip_split s) as [a [b Hs]]. rewrite Hs in H.
  rewrite !has_unsafe_app, !orb_false_iff in H. tauto.
Qed.

Lemma has_unsafe_take (n : nat) (s : str) :
  has_unsafe s = false -> has_unsafe (take n s) = false.
Proof.
  intros H. rewrite <- (take_drop n s), has_unsafe_app, orb_false_iff in H. tauto.
Qed.

Lemma has_unsafe_sanitized (title : str) : has_unsafe (sanitized title) = false.
Proof.
  unfold sanitized. apply has_unsafe_strip, has_unsafe_sub_spaces, has_unsafe_sub_unsafe.
Qed.

Lemma clean_filename_take (title : str) :
  clean_filename title = take 100 (sanitized title).
Proof.
  unfold clean_filename. cbv zeta.
  destruct (100 <? length (sanitized title)) eqn:E; [reflexivity|].
  apply Nat.ltb_ge in E. symmetry. apply take_ge. lia.
Qed.

(** C3. The Filename Sanitizer is total; its result holds none of the nine
    unsafe characters, is at most 100 characters long, and is the first 100
    characters of the sanitized title, nothing being appended: the sanitized
    title itself when that is no longer than 100.  Before the truncation the
    title has no run of two white-space characters and no leading or trailing
    white space (the result keeps the first two); the result can be empty. *)
Theorem clean_filename_safe_bounded (title : str) :
  has_unsafe (clean_filename title) = false /\
  length (clean_filename title) <= 100 /\
  clean_filename title = take 100 (sanitized title) /\
  (if length (sanitized title) <=? 100
   then clean_filename title = sanitized title else True) /\
  has_space_run (sanitized title) = false /\
  starts_with_space (sanitized title) = false /\
  ends_with_space (sanitized title) = false /\
  has_space_run (clean_filename title) = false /\
  starts_with_space (clean_filename title) = false /\
  clean_filename [] = [] /\
  clean_filename (py "<br/> ") = [].
Proof.
  assert (Hrun : has_space_run (sanitized title) = false)
    by apply has_space_run_strip, sub_spaces_no_run.
  assert (Hlead : starts_with_space (sanitized title) = false)
    by apply strip_no_lead.
  rewrite !clean_filename_take.
  repeat split.
  - apply has_unsafe_take, has_unsafe_sanitized.
  - rewrite length_take. lia.
  - destruct (length (sanitized title) <=? 100) eqn:E; [|exact I].
    apply Nat.leb_le in E. apply take_ge. lia.
  - exact Hrun.
  - exact Hlead.
  - apply strip_no_trail.
  - apply has_space_run_take, Hrun.
  - destruct (sanitized title); [reflexivity | exact Hlead].
Qed.

(** ** Blank-line normalization *)

Lemma char_eqb_eq (a b : char) : char_eqb a b = true <-> a = b.
Proof. apply N.eqb_eq. Qed.

Lemma has_newline_run3_cons3 (a b c : char) (t : str) :
  has_newline_run3 (a :: b :: c :: t) =
  char_eqb a NL && char_eqb b NL && char_eqb c NL || has_newline_run3 (b :: c :: t).
Proof. reflexivity. Qed.

Lemma has_newline_run3_tail (x : char) (s : str) :
  has_newline_run3 (x :: s) = false -> has_newline_run3 s = false.
Proof.
  destruct s as [|y [|z s']]; try reflexivity.
  rewrite has_newline_run3_cons3, orb_false_iff. tauto.
Qed.

Lemma has_newline_run3_app_r (a b : str) :
  has_newline_run3 (a ++ b) = false -> has_newline_run3 b = false.
Proof.
  induction a as [|x t IH]; [simpl; tauto|].
  intros H. apply IH, (has_newline_run3_tail x), H.
Qed.

Lemma has_newline_run3_app_l (a b : str) :
  has_newline_run3 (a ++ b) = false -> has_newline_run3 a = false.
Proof.
  induction a as [|x t IH]; [reflexivity|].
  destruct t as [|y [|z t']]; try reflexivity.
  change ((x :: y :: z :: t') ++ b) with (x :: y :: z :: (t' ++ b)).
  rewrite !has_newline_run3_cons3, !orb_false_iff.
  intros [H1 H2]. split; [exact H1 | apply IH, H2].
Qed.

Lemma has_newline_run3_strip (s : str) :
  has_newline_run3 s = false -> has_newline_run3 (strip s) = false.
Proof.
  intros H. destruct (strip_split s) as [a [b Hs]]. rewrite Hs in H.
  eapply has_newline_run3_app_l, has_newline_run3_app_r, H.
Qed.

Lemma newline_run_le (run : nat) :
  exists k, newline_run run = repeat NL k /\ k <= 2 /\ (run <= 2 -> k = run).
Proof.
  unfold newline_run. destruct (3 <=? run) eqn:E.
  - apply Nat.leb_le in E. exists 2. split; [reflexivity | lia].
  - apply Nat.leb_gt in E. exists run. split; [reflexivity | lia].
Qed.

(** At most two newlines in front of a string that does not start with one
    add no run of three. *)
Lemma has_newline_run3_repeat_cons (k : nat) (c : char) (r : str) :
  k <= 2 -> char_eqb c NL = false ->
  has_newline_run3 (c :: r) = false ->
  has_newline_run3 (repeat NL k ++ c :: r) = false.
Proof.
  intros Hk Hc Hr.
  destruct k as [|[|[|k]]]; [exact Hr| | |lia].
  - change (has_newline_run3 (NL :: c :: r) = false).
    destruct r as [|d r']; [reflexivity|].
    rewrite has_newline_run3_cons3, Hc, andb_false_r. exact Hr.
  - change (has_newline_run3 (NL :: NL :: c :: r) = false).
    rewrite has_newline_run3_cons3, Hc, andb_false_r. cbn [orb].
    destruct r as [|d r']; [reflexivity|].
    rewrite has_newline_run3_cons3, Hc, andb_false_r. exact Hr.
Qed.

Lemma has_newline_run3_repeat (k : nat) :
  k <= 2 -> has_newline_run3 (repeat NL k) = false.
Proof. intros Hk. destruct k as [|[|[|k]]]; [reflexivity..|lia]. Qed.

Lemma has_newline_run3_skip (c : char) (r : str) :
  char_eqb c NL = false ->
  has_newline_run3 (c :: r) = has_newline_run3 r.
Proof.
  intros Hc. destruct r as [|y [|z r']]; try reflexivity.
  rewrite has_newline_run3_cons3, Hc. reflexivity.
Qed.

Lemma sub_newlines_from_no_run3 (s : str) : forall run,
  has_newline_run3 (sub_newlines_from run s) = false.
Proof.
  induction s as [|c t IH]; intros run; cbn [sub_newlines_from].
  - destruct (newline_run_le run) as [k [-> [Hk _]]].
    apply has_newline_run3_repeat, Hk.
  - destruct (char_eqb c NL) eqn:Hc; [apply IH|].
    destruct (newline_run_le run) as [k [-> [Hk _]]].
    apply has_newline_run3_repeat_cons; [exact Hk | exact Hc |].
    rewrite (has_newline_run3_skip _ _ Hc). apply IH.
Qed.

Lemma repeat_three_run (run : nat) (s : str) :
  has_newline_run3 (repeat NL run ++ s) = false -> run <= 2.
Proof.
  intros H. destruct run as [|[|[|run]]]; [lia..|].
  change (repeat NL (S (S (S run))) ++ s) with (NL :: NL :: NL :: (repeat NL run ++ s)) in H.
  rewrite has_newline_run3_cons3 in H. discriminate.
Qed.

Lemma repeat_shift (run : nat) (t : str) :
  repeat NL run ++ NL :: t = repeat NL (S run) ++ t.
Proof. induction run as [|n IH]; [reflexivity | simpl; f_equal; exact IH]. Qed.

Lemma sub_newlines_from_id (s : str) : forall run,
  has_newline_run3 (repeat NL run ++ s) = false ->
  sub_newlines_from run s = repeat NL run ++ s.
Proof.
  induction s as [|c t IH]; intros run H; cbn [sub_newlines_from].
  - pose proof (repeat_three_run _ _ H) as Hr.
    destruct (newline_run_le run) as [k [-> [_ Hk]]].
    rewrite (Hk Hr), app_nil_r. reflexivity.
  - destruct (char_eqb c NL) eqn:Hc.
    + apply char_eqb_eq in Hc. subst c.
      rewrite repeat_shift in H. rewrite repeat_shift.
      apply (IH (S run)). exact H.
    + pose proof (repeat_three_run _ _ H) as Hr.
      destruct (newline_run_le run) as [k [-> [_ Hk]]].
      rewrite (Hk Hr). f_equal. f_equal.
      apply (IH 0). apply has_newline_run3_app_r in H.
      rewrite (has_newline_run3_skip _ _ Hc) in H. exact H.
Qed.

Lemma sub_newlines_id (s : str) :
  has_newline_run3 s = false -> sub_newlines s = s.
Proof. intros H. apply (sub_newlines_from_id s 0). exact H. Qed.

Lemma normalize_no_run3 (raw : str) :
  has_newline_run3 (normalize_blank_lines raw) = false.
Proof. apply has_newline_run3_strip, sub_newlines_from_no_run3. Qed.

Lemma normalize_fixed (raw : str) :
  normalize_blank_lines (normalize_blank_lines raw) = normalize_blank_lines raw.
Proof.
  unfold normalize_blank_lines at 1.
  rewrite (sub_newlines_id _ (normalize_no_run3 raw)).
  apply strip_idempotent.
Qed.

(** C7. Blank-line normalization is idempotent: the normalized form of any
    text holds no run of three newlines and is a fixed point of the
    normalization (collapse, then trim); so is whatever [html_to_markdown]
    returns. *)
Theorem normalize_blank_lines_idempotent
    (BeautifulSoup : str -> result soup) (soup_str : soup -> str)
    (md : str -> result str) (raw html_content : str) :
  has_newline_run3 (normalize_blank_lines raw) = false /\
  normalize_blank_lines (normalize_blank_lines raw) = normalize_blank_lines raw /\
  match html_to_markdown BeautifulSoup soup_str md html_content with
  | Ok out => has_newline_run3 out = false /\ normalize_blank_lines out = out
  | Raise _ => True
  end.
Proof.
  split; [apply normalize_no_run3|]. split; [apply normalize_fixed|].
  unfold html_to_markdown, rbind.
  destruct (BeautifulSoup html_content) as [s|e]; [|exact I].
  destruct (md _) as [m|e]; [|exact I].
  split; [apply normalize_no_run3 | apply normalize_fixed].
Qed.

(** ** The title resolver *)

Lemma char_eqb_refl (a : char) : char_eqb a a = true.
Proof. apply N.eqb_refl. Qed.

Lemma after_prefix_app (p r : str) : after_prefix p (p ++ r) = Some r.
Proof.
  induction p as [|x p IH]; [reflexivity|].
  simpl. rewrite char_eqb_refl. exact IH.
Qed.

Lemma after_prefix_Some (p s r : str) : after_prefix p s = Some r -> s = p ++ r.
Proof.
  revert s. induction p as [|x p IH]; intros s; simpl.
  - intros [= ->]. reflexivity.
  - destruct s as [|y s']; [discriminate|].
    destruct (char_eqb x y) eqn:E; [|discriminate].
    apply char_eqb_eq in E. subst y. intros H. f_equal. apply IH, H.
Qed.

Section TitleResolverFacts.

Variable lower : str -> str.
Variable isdecimal : char -> bool.

Lemma spaces_digits_spec (s : str) :
  spaces_digits isdecimal s = true <->
  exists ws d rest, ws <> [] /\ forallb isspace ws = true /\
                    isdecimal d = true /\ s = ws ++ d :: rest.
Proof.
  split.
  - induction s as [|c t IH]; [discriminate|].
    cbn [spaces_digits]. rewrite andb_true_iff, orb_true_iff.
    intros [Hc [Hd|Hs]].
    + destruct t as [|d rest]; [discriminate|].
      exists [c], d, rest. simpl. rewrite Hc. repeat split; [discriminate | exact Hd].
    + destruct (IH Hs) as [ws [d [rest [_ [Hws [Hd ->]]]]]].
      exists (c :: ws), d, rest. simpl. rewrite Hc, Hws.
      repeat split; [discriminate | exact Hd].
  - intros [ws [d [rest [Hne [Hws [Hd ->]]]]]].
    induction ws as [|c ws IH]; [contradiction|].
    simpl in Hws. apply andb_true_iff in Hws. destruct Hws as [Hc Hws].
    change (isspace c && (starts_with_digit isdecimal (ws ++ d :: rest)
                          || spaces_digits isdecimal (ws ++ d :: rest)) = true).
    rewrite Hc. destruct ws as [|c' ws'].
    + simpl. rewrite Hd. reflexivity.
    + rewrite IH; [apply orb_true_r | discriminate | exact Hws].
Qed.

Lemma re_match_chapter_spec (s : str) :
  re_match_chapter isdecimal s = true <-> chapter_pattern isdecimal s.
Proof.
  unfold re_match_chapter, chapter_pattern. split.
  - rewrite orb_true_iff. intros [H|H].
    + destruct (after_prefix (py "chapter") s) as [r|] eqn:E; [|discriminate].
      apply after_prefix_Some in E. apply spaces_digits_spec in H.
      destruct H as [ws [d [rest [H1 [H2 [H3 ->]]]]]].
      exists (py "chapter"), ws, d, rest. tauto.
    + destruct (after_prefix (py "ch") s) as [r|] eqn:E; [|discriminate].
      apply after_prefix_Some in E. apply orb_true_iff in H. destruct H as [H|H].
      * destruct (after_prefix (py ".") r) as [r'|] eqn:E'; [|discriminate].
        apply after_prefix_Some in E'. apply spaces_digits_spec in H.
        destruct H as [ws [d [rest [H1 [H2 [H3 ->]]]]]].
        exists (py "ch."), ws, d, rest. subst. tauto.
      * apply spaces_digits_spec in H.
        destruct H as [ws [d [rest [H1 [H2 [H3 ->]]]]]].
        exists (py "ch"), ws, d, rest. tauto.
  - intros [p [ws [d [rest [Hp [H1 [H2 [H3 ->]]]]]]]].
    assert (Hsd : spaces_digits isdecimal (ws ++ d :: rest) = true)
      by (apply spaces_digits_spec; exists ws, d, rest; tauto).
    destruct Hp as [-> | [-> | ->]].
    + rewrite after_prefix_app, Hsd. reflexivity.
    + change (py "ch." ++ ws ++ d :: rest)
        with (py "ch" ++ py "." ++ ws ++ d :: rest).
      rewrite (after_prefix_app (py "ch")), after_prefix_app, Hsd.
      apply orb_true_r.
    + rewrite (after_prefix_app (py "ch")), Hsd, !orb_true_r. reflexivity.
Qed.

Lemma heading_title_nonblank (s : soup) (tag t : str) :
  heading_title s tag = Some t -> nonblank t = true.
Proof.
  unfold heading_title. destruct (find tag s) as [element|]; [|discriminate].
  cbv zeta. destruct (nonblank (strip (get_text element))) eqn:E; [|discriminate].
  intros [= <-]. exact E.
Qed.

Lemma first_chapter_line_find (elements : list node) :
  first_chapter_line lower isdecimal elements =
  option_map (fun e => strip (get_text e))
    (List.find (fun e => re_match_chapter isdecimal (lower (strip (get_text e))))
               elements).
Proof.
  induction elements as [|e rest IH]; [reflexivity|].
  cbn [first_chapter_line List.find]. cbv zeta.
  destruct (re_match_chapter isdecimal (lower (strip (get_text e)))); [reflexivity | exact IH].
Qed.

Lemma first_chapter_line_nonblank (elements : list node) (text : str) :
  lower [] = [] ->
  first_chapter_line lower isdecimal elements = Some text -> nonblank text = true.
Proof.
  intros Hlow. induction elements as [|e rest IH]; [discriminate|].
  cbn [first_chapter_line]. cbv zeta.
  destruct (re_match_chapter isdecimal (lower (strip (get_text e)))) eqn:E; [|exact IH].
  intros [= <-]. destruct (strip (get_text e)); [|reflexivity].
  rewrite Hlow in E. discriminate.
Qed.

Lemma tag_named_single (name : str) (n : node) :
  tag_named [name] n = is_element name n.
Proof. destruct n as [t|t|nm cs]; [reflexivity..|]. cbn. apply orb_false_r. Qed.

Lemma head_filter_find {A : Type} (f : A -> bool) (l : list A) :
  head (List.filter f l) = List.find f l.
Proof.
  induction l as [|x t IH]; [reflexivity|].
  cbn [List.filter List.find]. destruct (f x); [reflexivity | exact IH].
Qed.

Lemma find_filter {A : Type} (f g : A -> bool) (l : list A) :
  List.find f (List.filter g l) = List.find (fun x => g x && f x) l.
Proof.
  induction l as [|x t IH]; [reflexivity|].
  cbn [List.filter List.find]. destruct (g x); cbn [List.find andb]; [|exact IH].
  destruct (f x); [reflexivity | exact IH].
Qed.

Lemma find_ext {A : Type} (f g : A -> bool) (l : list A) :
  (forall x, f x = g x) -> List.find f l = List.find g l.
Proof.
  intros H. induction l as [|x t IH]; [reflexivity|].
  cbn [List.find]. rewrite H, IH. reflexivity.
Qed.

Lemma find_first_element (name : str) (s : soup) :
  find name s = first_element name s.
Proof.
  unfold find, find_all, first_element. rewrite head_filter_find.
  apply find_ext, tag_named_single.
Qed.

Lemma heading_title_step (s : soup) (name : str) :
  heading_title s name = heading_step name s.
Proof.
  unfold heading_title, heading_step. rewrite find_first_element.
  destruct (first_element name s); reflexivity.
Qed.

Lemma tag_named_block (n : node) :
  tag_named block_tags n
  = is_element (py "p") n || is_element (py "div") n || is_element (py "span") n.
Proof.
  destruct n as [t|t|nm cs]; [reflexivity..|].
  unfold block_tags. cbn [tag_named existsb is_element].
  rewrite orb_false_r, orb_assoc. reflexivity.
Qed.

Lemma first_chapter_line_step (s : soup) :
  first_chapter_line lower isdecimal (find_all block_tags s)
  = chapter_step lower isdecimal s.
Proof.
  rewrite first_chapter_line_find. unfold find_all, chapter_step.
  rewrite find_filter.
  rewrite (find_ext _ (fun n => (is_element (py "p") n || is_element (py "div") n
                                 || is_element (py "span") n)
                                && re_match_chapter isdecimal (lower (strip (get_text n))))).
  - destruct (List.find _ _); reflexivity.
  - intros n. rewrite tag_named_block. reflexivity.
Qed.

(** C4, as amended. The Title Resolver is a total function and its title
    is never empty.  It is the trimmed text of the first [h1] node when
    that text is not blank, else likewise of the first [h2], the first [h3]
    and the first [title] node, else the first chapter line, else the
    literal Untitled Chapter, which is also the title of the empty tree.
    Only the first node of each kind is looked at: a blank first [h1] is
    not made up for by a later one. *)
Theorem extract_title_follows_chain (s : soup) :
  lower [] = [] ->
  extract_title_from_content lower isdecimal s = title_chain lower isdecimal s /\
  nonblank (extract_title_from_content lower isdecimal s) = true /\
  extract_title_from_content lower isdecimal [] = py "Untitled Chapter".
Proof.
  intros Hlow. split; [|split; [|reflexivity]].
  - unfold extract_title_from_content, title_chain, heading_tags.
    cbn [first_heading first_success].
    rewrite !heading_title_step, first_chapter_line_step.
    destruct (heading_step (py "h1") s); [reflexivity|].
    destruct (heading_step (py "h2") s); [reflexivity|].
    destruct (heading_step (py "h3") s); [reflexivity|].
    destruct (heading_step (py "title") s); [reflexivity|].
    destruct (chapter_step lower isdecimal s); reflexivity.
  - unfold extract_title_from_content.
    destruct (first_heading s heading_tags) as [t|] eqn:E.
    + revert E. generalize heading_tags. intros tags.
      induction tags as [|tag rest IH]; [discriminate|].
      cbn [first_heading]. destruct (heading_title s tag) as [t'|] eqn:E'; [|exact IH].
      intros [= <-]. eapply heading_title_nonblank, E'.
    + destruct (first_chapter_line _ _ _) as [t|] eqn:E'; [|reflexivity].
      eapply first_chapter_line_nonblank; [exact Hlow | exact E'].
Qed.

(** C5, as amended. When no heading step yields a title, the resolver
    returns the stripped text of the first [p], [div] or [span] element, in
    document order, whose lower-cased stripped text starts with chapter,
    ch. or ch, then at least one white-space character, then a decimal
    digit; Untitled Chapter when there is none.  White space between the
    word and the digits is required. *)
Theorem chapter_line_requires_space (s : soup) :
  first_heading s heading_tags = None ->
  extract_title_from_content lower isdecimal s =
    match List.find (fun e => re_match_chapter isdecimal (lower (strip (get_text e))))
                    (find_all block_tags s) with
    | Some e => strip (get_text e)
    | None => py "Untitled Chapter"
    end /\
  forall text, re_match_chapter isdecimal text = true <-> chapter_pattern isdecimal text.
Proof.
  intros H. split; [|apply re_match_chapter_spec].
  unfold extract_title_from_content. rewrite H, first_chapter_line_find.
  destruct (List.find _ _); reflexivity.
Qed.

End TitleResolverFacts.

Lemma extract_title_follows_chain_witness :
  ascii_lower [] = [] /\
  extract_title_from_content ascii_lower ascii_isdecimal soup_blank_h1_then_h2
    = title_chain ascii_lower ascii_isdecimal soup_blank_h1_then_h2 /\
  title_chain ascii_lower ascii_isdecimal soup_blank_h1_then_h2 = py "Two".
Proof.
  split; [reflexivity|]. split; [|reflexivity].
  apply (extract_title_follows_chain ascii_lower ascii_isdecimal soup_blank_h1_then_h2).
  reflexivity.
Defined.

(** C4, as stated, fails: in [<h1> </h1><h1>Real</h1>] the first [h1] that
    is not blank reads Real, yet the resolver looks at the first [h1] only,
    finds it blank, and falls through to Untitled Chapter. *)
Lemma first_nonblank_h1_not_tried :
  first_nonblank_element (py "h1") soup_blank_then_real
    = Some (Tag (py "h1") [NavigableString (py "Real")]) /\
  extract_title_from_content ascii_lower ascii_isdecimal soup_blank_then_real
    = py "Untitled Chapter" /\
  extract_title_from_content ascii_lower ascii_isdecimal soup_blank_then_real
    <> py "Real".
Proof. repeat split; discriminate. Qed.

Lemma chapter_line_requires_space_witness :
  first_heading soup_ch_7 heading_tags = None /\
  extract_title_from_content ascii_lower ascii_isdecimal soup_ch_7 = py "Ch.  7".
Proof.
  split; [reflexivity|].
  etransitivity;
    [apply (chapter_line_requires_space ascii_lower ascii_isdecimal soup_ch_7); reflexivity|].
  reflexivity.
Defined.

(** C5, as stated, fails: the only text of [<p>ch.3</p>] is ch, a period and
    a digit, which the claimed pattern accepts, yet the resolver falls
    through to Untitled Chapter. *)
Lemma chapter_line_period_digit_unmatched :
  first_heading soup_ch_period_3 heading_tags = None /\
  claimed_chapter_pattern ascii_isdecimal (ascii_lower (py "ch.3")) = true /\
  find_all block_tags soup_ch_period_3 = [Tag (py "p") [NavigableString (py "ch.3")]] /\
  extract_title_from_content ascii_lower ascii_isdecimal soup_ch_period_3
    = py "Untitled Chapter" /\
  extract_title_from_content ascii_lower ascii_isdecimal soup_ch_period_3 <> py "ch.3".
Proof. repeat split; discriminate. Qed.

(** ** The chapter pipeline *)

Section PipelineFacts.

Variable lower : str -> str.
Variable isdecimal : char -> bool.
Variable decode_utf8 : list Byte.byte -> result str.
Variable BeautifulSoup : str -> result soup.
Variable soup_str : soup -> str.
Variable md : str -> result str.
Variable read_epub : str -> result book.
Variable fs_raises : list fs_op -> fs_op -> option exn.

#[warnings="-notation-for-abbreviation"] Notation outcome_of :=
  (item_outcome lower isdecimal decode_utf8 BeautifulSoup soup_str md).
#[warnings="-notation-for-abbreviation"] Notation run_item :=
  (process_item lower isdecimal decode_utf8 BeautifulSoup soup_str md).
#[warnings="-notation-for-abbreviation"] Notation run_items :=
  (process_items lower isdecimal decode_utf8 BeautifulSoup soup_str md).
#[warnings="-notation-for-abbreviation"] Notation accepted :=
  (accepted_chapters lower isdecimal decode_utf8 BeautifulSoup soup_str md).

(** The loop body computes the outcome of its item, and prints its line
    unless it raises. *)
Lemma process_item_outcome (i : nat) (it : item) (w : world) :
  run_item i it w =
  match outcome_of it with
  | Failed e => (Raise e, w)
  | Accepted c => (Ok (Some c), said w (Processed (fst c)))
  | o => (Ok None, said w (outcome_line i o))
  end.
Proof.
  unfold process_item, item_outcome, bind, lift, print, ret, said.
  destruct (get_content it) as [content|e]; [|reflexivity].
  destruct (match content with Bytes b => decode_utf8 b | Text s => Ok s end)
    as [html_content|e]; [|reflexivity].
  destruct (BeautifulSoup html_content) as [s|e]; [|reflexivity].
  cbv zeta.
  destruct (length (strip (soup_get_text s)) <? 100); [reflexivity|].
  destruct (html_to_markdown BeautifulSoup soup_str md html_content) as [m|e];
    [|reflexivity].
  destruct (nonblank (strip m)); reflexivity.
Qed.

(** With the handler around it, the loop body never raises. *)
Lemma process_item_caught (i : nat) (it : item) (w : world) :
  try_except (run_item i it)
             (fun e => bind (print (Error_processing_item i e)) (fun _ => ret None)) w
  = (Ok match outcome_of it with
        | Accepted c => Some c
        | _ => None
        end,
     said w (outcome_line i (outcome_of it))).
Proof.
  unfold try_except. rewrite process_item_outcome.
  destruct (outcome_of it); reflexivity.
Qed.

Lemma process_items_run (items : list item) : forall i chapters w,
  run_items i items chapters w =
  (Ok (chapters ++ accepted items),
   World (stdout w ++ outcome_lines i (List.map outcome_of items)) (fs_calls w)).
Proof.
  induction items as [|it rest IH]; intros i chapters w.
  - cbn. rewrite !app_nil_r. destruct w; reflexivity.
  - cbn [process_items]. unfold bind at 1. rewrite process_item_caught.
    rewrite IH. unfold said, outcome_lines, accepted_chapters.
    cbn [stdout fs_calls List.map enumerate flat_map fst snd].
    destruct (outcome_of it); rewrite <- ?app_assoc; reflexivity.
Qed.

(** [process_chapters] returns, whatever the items do: the chapters of
    the accepted items in reading order, one line per item, no
    file-system call. *)
Lemma process_chapters_run (b : book) (w : world) :
  process_chapters lower isdecimal decode_utf8 BeautifulSoup soup_str md b w =
  (Ok (accepted (get_spine_items b)),
   World (stdout w ++ Found_items_in_spine (length (get_spine_items b))
                   :: outcome_lines 1 (List.map outcome_of (get_spine_items b)))
         (fs_calls w)).
Proof.
  unfold process_chapters, bind, print. rewrite process_items_run.
  cbn [stdout fs_calls app]. rewrite <- app_assoc. reflexivity.
Qed.

Lemma enumerate_lookup {A : Type} (l : list A) : forall i k x,
  l !! k = Some x -> enumerate i l !! k = Some (i + k, x).
Proof.
  induction l as [|y t IH]; intros i k x; [discriminate|].
  destruct k as [|k]; cbn [enumerate].
  - intros [= ->]. rewrite Nat.add_0_r. reflexivity.
  - intros H. change (enumerate (S i) t !! k = Some (i + S k, x)).
    rewrite (IH (S i) k x H). f_equal. f_equal. lia.
Qed.

(** A failing fragment is logged under its 1-based position. *)
Lemma failed_item_logged (items : list item) (k : nat) (it : item) (e : exn) :
  items !! k = Some it -> outcome_of it = Failed e ->
  outcome_lines 1 (List.map outcome_of items) !! k
    = Some (Error_processing_item (S k) e).
Proof.
  intros Hk He. unfold outcome_lines.
  assert (H : List.map outcome_of items !! k = Some (Failed e)).
  { change (List.map outcome_of items) with (outcome_of <$> items).
    rewrite list_lookup_fmap, Hk. cbn. rewrite He. reflexivity. }
  apply (enumerate_lookup _ 1) in H.
  change (List.map ?f ?l) with (f <$> l).
  rewrite list_lookup_fmap, H. reflexivity.
Qed.

(** C6. The classifier in the loop body: an item whose stripped plain text
    is shorter than 100 characters is skipped whatever the converter would
    return for it; with 100 characters or more it is skipped when the
    converted content is blank and appended otherwise, so in particular
    with 150 characters and content that is not blank. *)
Theorem classifier_thresholds
    (i : nat) (it : item) (content : payload) (html_content : str)
    (s : soup) (w : world) :
  get_content it = Ok content ->
  match content with Bytes b => decode_utf8 b | Text t => Ok t end = Ok html_content ->
  BeautifulSoup html_content = Ok s ->
  let chars := length (strip (soup_get_text s)) in
  let title := extract_title_from_content lower isdecimal s in
  let converted := html_to_markdown BeautifulSoup soup_str md html_content in
  (chars < 100 ->
     run_item i it w = (Ok None, said w (Skipping_too_short i chars))) /\
  (forall m, 100 <= chars -> converted = Ok m -> strip m = [] ->
     run_item i it w = (Ok None, said w (Skipping_no_content i))) /\
  (forall m, 100 <= chars -> converted = Ok m -> strip m <> [] ->
     run_item i it w = (Ok (Some (title, m)), said w (Processed title))) /\
  (forall m, chars = 150 -> converted = Ok m -> strip m <> [] ->
     run_item i it w = (Ok (Some (title, m)), said w (Processed title))).
Proof.
  intros Hc Hd Hp chars title converted.
  assert (Hhigh : forall m, 100 <= chars -> converted = Ok m -> strip m <> [] ->
            run_item i it w = (Ok (Some (title, m)), said w (Processed title))).
  { intros m Hn Hm Hne. rewrite process_item_outcome.
    unfold item_outcome. rewrite Hc, Hd, Hp. cbv zeta. fold chars.
    apply Nat.ltb_ge in Hn. rewrite Hn. fold converted. rewrite Hm.
    destruct (strip m); [contradiction | reflexivity]. }
  repeat split.
  - intros Hn. rewrite process_item_outcome.
    unfold item_outcome. rewrite Hc, Hd, Hp. cbv zeta. fold chars.
    apply Nat.ltb_lt in Hn. rewrite Hn. reflexivity.
  - intros m Hn Hm He. rewrite process_item_outcome.
    unfold item_outcome. rewrite Hc, Hd, Hp. cbv zeta. fold chars.
    apply Nat.ltb_ge in Hn. rewrite Hn. fold converted. rewrite Hm, He. reflexivity.
  - exact Hhigh.
  - intros m Hn. apply Hhigh. lia.
Qed.

End PipelineFacts.

Lemma classifier_thresholds_witness :
  get_content (Sample.html_item (py "c1") (py "Chapter 1", Sample.long_text))
    = Ok (Text (Sample.html_of (py "Chapter 1") Sample.long_text)) /\
  length (strip (soup_get_text (Sample.soup_of (py "Chapter 1") Sample.long_text))) = 150 /\
  process_item ascii_lower ascii_isdecimal Sample.decode_utf8 Sample.BeautifulSoup
    Sample.soup_str Sample.md 1
    (Sample.html_item (py "c1") (py "Chapter 1", Sample.long_text)) (World [] [])
  = (Ok (Some (py "Chapter 1", py "# Chapter 1" ++ [NL; NL] ++ Sample.long_text)),
     World [Processed (py "Chapter 1")] []).
Proof.
  split; [reflexivity|]. split; [reflexivity|].
  refine (proj2 (proj2 (proj2
    (classifier_thresholds ascii_lower ascii_isdecimal Sample.decode_utf8
       Sample.BeautifulSoup Sample.soup_str Sample.md 1
       (Sample.html_item (py "c1") (py "Chapter 1", Sample.long_text))
       (Text (Sample.html_of (py "Chapter 1") Sample.long_text))
       (Sample.html_of (py "Chapter 1") Sample.long_text)
       (Sample.soup_of (py "Chapter 1") Sample.long_text)
       (World [] []) eq_refl eq_refl eq_refl)))
    (py "# Chapter 1" ++ [NL; NL] ++ Sample.long_text) eq_refl eq_refl _).
  discriminate.
Defined.

(** ** The writers *)

Lemma enumerate_fst {A : Type} (l : list A) : forall i,
  List.map fst (enumerate i l) = seq i (length l).
Proof.
  induction l as [|x t IH]; intros i; [reflexivity|].
  cbn. f_equal. apply IH.
Qed.

Lemma enumerate_length {A : Type} (l : list A) : forall i,
  length (enumerate i l) = length l.
Proof. induction l as [|x t IH]; intros i; [reflexivity | cbn; f_equal; apply IH]. Qed.

Lemma written_paths_app (a b : list fs_op) :
  written_paths (a ++ b) = written_paths a ++ written_paths b.
Proof. apply flat_map_app. Qed.

Section WriterFacts.

Variable fs_raises : list fs_op -> fs_op -> option exn.

(** The loop of [save_chapters] ends normally whatever the file system
    does, having attempted one write per chapter, in order. *)
Lemma save_each_run (dir : str) (chapters : list chapter) : forall i w,
  exists out,
    save_each fs_raises dir i chapters w =
    (Ok tt, World (stdout w ++ out)
                  (fs_calls w ++ List.map (chapter_write dir) (enumerate i chapters))).
Proof.
  induction chapters as [|[title content] rest IH]; intros i w.
  - exists []. cbn. rewrite !app_nil_r. destruct w; reflexivity.
  - cbn [save_each]. cbv zeta. unfold bind at 1.
    unfold try_except, bind, fs_call, print.
    destruct (fs_raises (fs_calls w) _) as [e|];
      cbn [stdout fs_calls];
      match goal with
      | |- context [save_each _ _ _ _ ?w1] =>
          destruct (IH (S i) w1) as [out Hout]; rewrite Hout
      end;
      cbn [stdout fs_calls]; eexists; rewrite <- !app_assoc; reflexivity.
Qed.

Lemma index_each_run (chapters : list chapter) : forall i index_content,
  index_each i chapters index_content =
  index_content ++
  concat (List.map (fun ic => toc_line (fst ic) (fst (snd ic))
                                (chapter_filename (fst ic) (fst (snd ic))))
                   (enumerate i chapters)).
Proof.
  induction chapters as [|[title content] rest IH]; intros i index_content.
  - cbn. rewrite app_nil_r. reflexivity.
  - cbn [index_each enumerate List.map concat fst snd]. cbv zeta.
    rewrite IH. unfold toc_line, chapter_filename.
    rewrite <- !app_assoc. reflexivity.
Qed.

End WriterFacts.

(** ** Numbering *)

Lemma leading_number_uint (d : Decimal.uint) : forall acc rest,
  leading_number acc (uint_chars d ++ rest) = leading_number (Nat.of_uint_acc d acc) rest.
Proof.
  induction d as [|d IH|d IH|d IH|d IH|d IH|d IH|d IH|d IH|d IH|d IH];
    intros acc rest; [reflexivity|..];
    cbn [uint_chars app leading_number Nat.of_uint_acc];
    change (digit_value _) with (Some 0) || change (digit_value _) with (Some 1)
    || change (digit_value _) with (Some 2) || change (digit_value _) with (Some 3)
    || change (digit_value _) with (Some 4) || change (digit_value _) with (Some 5)
    || change (digit_value _) with (Some 6) || change (digit_value _) with (Some 7)
    || change (digit_value _) with (Some 8) || change (digit_value _) with (Some 9);
    cbv iota; rewrite IH, Nat.tail_mul_spec; do 2 f_equal; lia.
Qed.

Lemma leading_number_zeros (k : nat) (s : str) :
  leading_number 0 (repeat 48%N k ++ s) = leading_number 0 s.
Proof. induction k as [|k IH]; [reflexivity | exact IH]. Qed.

(** The position is read back from the front of the file name. *)
Lemma filename_number_chapter_filename (i : nat) (title : str) :
  filename_number (chapter_filename i title) = i.
Proof.
  unfold filename_number, chapter_filename, fmt_02d, str_of_nat. cbv zeta.
  rewrite <- !app_assoc, leading_number_zeros, leading_number_uint.
  change (leading_number ?a (py "_" ++ ?r)) with a.
  apply Unsigned.of_to.
Qed.

Lemma fmt_02d_two_digits :
  Forall (fun i => length (fmt_02d i) = 2) (seq 0 100).
Proof. cbv [seq]. repeat constructor. Qed.

Lemma map_zip_with_self {A B C : Type} (f : A -> B -> C) (g : A -> B) (l : list A) :
  zip_with f l (List.map g l) = List.map (fun x => f x (g x)) l.
Proof. induction l as [|x t IH]; [reflexivity | cbn; f_equal; exact IH]. Qed.

Section NumberingFacts.

Variable lower : str -> str.
Variable isdecimal : char -> bool.
Variable decode_utf8 : list Byte.byte -> result str.
Variable BeautifulSoup : str -> result soup.
Variable soup_str : soup -> str.
Variable md : str -> result str.
Variable read_epub : str -> result book.
Variable fs_raises : list fs_op -> fs_op -> option exn.

Lemma accepted_chapters_length (items : list item) :
  length (accepted_chapters lower isdecimal decode_utf8 BeautifulSoup soup_str md items)
  <= length items.
Proof.
  induction items as [|it rest IH]; [reflexivity|].
  unfold accepted_chapters in *. cbn [flat_map].
  rewrite length_app. destruct (item_outcome _ _ _ _ _ _ it); cbn; lia.
Qed.

Lemma written_paths_chapter_writes (dir : str) (numbered : list (nat * chapter)) :
  written_paths (List.map (chapter_write dir) numbered) =
  List.map (fun ic => path_join dir (chapter_filename (fst ic) (fst (snd ic)))) numbered.
Proof.
  induction numbered as [|ic t IH]; [reflexivity|].
  cbn. f_equal. exact IH.
Qed.

Lemma chapter_filename_numbers (chapters : list chapter) (i : nat) :
  List.map filename_number
    (List.map (fun ic => chapter_filename (fst ic) (fst (snd ic))) (enumerate i chapters))
  = seq i (length chapters).
Proof.
  rewrite List.map_map. rewrite <- (enumerate_fst chapters i).
  apply List.map_ext. intros ic. apply filename_number_chapter_filename.
Qed.

(** C10. When the container loads and no item is accepted, [main] exits
    with status 0 having made no call to the file system: no directory,
    no chapter file, no index. *)
Theorem no_chapters_no_writes (a : args) (b : book) (xs : list meta_value) (w : world) :
  epub_file_exists a = true ->
  str_eqb (lower (epub_file_suffix a)) (py ".epub") = true ->
  read_epub (epub_file a) = Ok b ->
  get_metadata b DC (py "title") = Ok xs ->
  xs <> [] ->
  accepted_chapters lower isdecimal decode_utf8 BeautifulSoup soup_str md
    (get_spine_items b) = [] ->
  exists out,
    main lower isdecimal decode_utf8 BeautifulSoup soup_str md read_epub fs_raises
         (Normally a) w
    = (Normally (Ok 0), World (stdout w ++ out ++ [No_chapters_found]) (fs_calls w)).
Proof.
  intros Hex Hsuf Hread Hmeta Hxs Hacc.
  unfold main, main_after_parse. rewrite Hex, Hsuf. cbn [negb].
  unfold try_except, process, load_epub.
  unfold bind at 1. unfold bind at 1. unfold print at 1.
  unfold bind at 1. unfold try_except, bind at 1, lift at 1.
  cbn [stdout fs_calls]. rewrite Hread.
  unfold bind at 1, lift at 1. rewrite Hmeta.
  destruct xs as [|x more]; [contradiction|].
  unfold bind at 1, lift at 1. cbn [first_first].
  unfold bind at 1, print at 1, ret at 1. cbn [stdout fs_calls].
  unfold bind at 1. rewrite process_chapters_run, Hacc.
  unfold bind, print, ret. cbn [stdout fs_calls].
  exists (Processing_EPUB (epub_file a) :: Loaded_EPUB (format_value (fst x))
          :: Found_items_in_spine (length (get_spine_items b))
          :: outcome_lines 1
               (List.map (item_outcome lower isdecimal decode_utf8 BeautifulSoup soup_str md)
                         (get_spine_items b))).
  rewrite <- !app_assoc. reflexivity.
Qed.

End NumberingFacts.

Lemma no_chapters_no_writes_witness :
  accepted_chapters ascii_lower ascii_isdecimal Sample.decode_utf8 Sample.BeautifulSoup
    Sample.soup_str Sample.md (get_spine_items Sample.book_cover_only) = [] /\
  exists out,
    Sample.run_main Sample.book_cover_only Sample.fs_fine
    = (Normally (Ok 0), World ([] ++ out ++ [No_chapters_found]) []).
Proof.
  split; [reflexivity|].
  apply (no_chapters_no_writes ascii_lower ascii_isdecimal Sample.decode_utf8
           Sample.BeautifulSoup Sample.soup_str Sample.md
           (Sample.read_epub Sample.book_cover_only) Sample.fs_fine
           Sample.cli Sample.book_cover_only [(PyStr (py "Test Book"), [])] (World [] []));
    try reflexivity.
  discriminate.
Defined.

(** Five fragments of which the second is too short give the files 01 to
    04, and an index that links to them. *)
Example five_fragments_four_files :
  written_paths (fs_calls (snd (Sample.run_main Sample.book_five Sample.fs_fine)))
  = List.map (path_join Sample.out_dir)
      [py "01_Chapter 1.md"; py "02_Chapter 2.md"; py "03_Chapter 3.md";
       py "04_Chapter 4.md"; py "README.md"].
Proof. vm_compute. reflexivity. Qed.

(** ** Errors that reach [main] *)

(** A fragment that cannot be decoded is logged under its position and
    skipped, and a chapter file that cannot be written is logged and passed
    over: the run ends with status 0 in both cases. *)
Example fragment_and_chapter_file_errors_contained :
  fst (Sample.run_main Sample.book_bad_bytes Sample.fs_fine) = Normally (Ok 0) /\
  stdout (snd (Sample.run_main Sample.book_bad_bytes Sample.fs_fine)) !! 4
    = Some (Error_processing_item 2 UnicodeDecodeError) /\
  fst (Sample.run_main Sample.book_five Sample.fs_first_chapter_denied) = Normally (Ok 0) /\
  stdout (snd (Sample.run_main Sample.book_five Sample.fs_first_chapter_denied)) !! 9
    = Some (Error_saving (py "01_Chapter 1.md") (OSError (py "Permission denied"))).
Proof. vm_compute. repeat split; reflexivity. Qed.

(** C1, at the failing input. With four accepted chapters and a
    [README.md] that cannot be written, the error of that one file write
    leaves [create_index_file] and [process] and reaches [main], which
    reports it and exits with status 1, although every chapter file was
    written. *)
Theorem index_write_error_escalates :
  fst (Sample.run_main Sample.book_five Sample.fs_readme_denied) = Normally (Ok 1) /\
  last (stdout (snd (Sample.run_main Sample.book_five Sample.fs_readme_denied)))
    = Some (Error (OSError (py "Permission denied"))) /\
  written_paths (fs_calls (snd (Sample.run_main Sample.book_five Sample.fs_readme_denied)))
    = List.map (path_join Sample.out_dir)
        [py "01_Chapter 1.md"; py "02_Chapter 2.md"; py "03_Chapter 3.md";
         py "04_Chapter 4.md"; py "README.md"].
Proof. vm_compute. repeat split; reflexivity. Qed.

(** ** Book metadata *)

(** What [get_book_info] builds when the three queries return and every
    creator has a text. *)
Lemma get_book_info_fields (b : book) (titles creators languages : list meta_value)
    (texts : list str) :
  get_metadata b DC (py "title") = Ok titles ->
  get_metadata b DC (py "creator") = Ok creators ->
  str_items (List.map fst creators) = Ok texts ->
  get_metadata b DC (py "language") = Ok languages ->
  get_book_info (Some b) =
  Ok (<["language" := first_or_unknown languages]>
        (<["author" := PyStr (join_comma texts)]>
           (<["title" := first_or_unknown titles]> ∅))).
Proof.
  intros Ht Hc Hs Hl. unfold get_book_info. rewrite Ht, Hc, Hl. cbn [rbind].
  destruct titles, languages; cbn; rewrite Hs; reflexivity.
Qed.

(** C2, at the failing inputs. A container without a creator gets the empty
    string as author, not Unknown, while its language and title are kept; a
    container without a title does not get as far as the metadata:
    [load_epub] raises on it and [main] exits with status 1. *)
Theorem absent_creator_or_title_mishandled :
  rbind (get_book_info (Some Sample.book_anonymous))
        (fun info => getitem info "author") = Ok (PyStr []) /\
  rbind (get_book_info (Some Sample.book_anonymous))
        (fun info => getitem info "language") = Ok (PyStr (py "en")) /\
  rbind (get_book_info (Some Sample.book_untitled))
        (fun info => getitem info "title") = Ok (PyStr Unknown) /\
  Sample.run_main Sample.book_untitled Sample.fs_fine
    = (Normally (Ok 1),
       World [Processing_EPUB (py "book.epub"); Error (LoadFailure IndexError)] []).
Proof. vm_compute. repeat split; reflexivity. Qed.

(** * Further properties of the code *)

(** ** [get_spine_items] *)

Lemma str_eqb_eq (a b : str) : str_eqb a b = true <-> a = b.
Proof.
  revert b. induction a as [|x a IH]; intros [|y b]; cbn; try (split; [discriminate|discriminate]);
    [tauto|].
  rewrite andb_true_iff, char_eqb_eq, IH. split; [intros [-> ->]; reflexivity|].
  intros [= -> ->]. tauto.
Qed.

Lemma str_eqb_refl (a : str) : str_eqb a a = true.
Proof. apply str_eqb_eq. reflexivity. Qed.

(** What one entry of the spine contributes. *)
Lemma get_spine_items_app (m : str -> str -> result (list meta_value))
    (s1 s2 : list (str * str)) (items : list item) :
  get_spine_items (Book m (s1 ++ s2) items) =
  get_spine_items (Book m s1 items) ++ get_spine_items (Book m s2 items).
Proof. unfold get_spine_items. cbn [spine get_items]. apply flat_map_app. Qed.

Lemma find_first_match (id : str) (before after : list item) (it : item) :
  existsb (fun x => str_eqb (get_id x) id) before = false ->
  get_id it = id ->
  List.find (fun x => str_eqb (get_id x) id) (before ++ it :: after) = Some it.
Proof.
  intros Hb Hid. induction before as [|x t IH]; cbn.
  - rewrite Hid, str_eqb_refl. reflexivity.
  - cbn in Hb. apply orb_false_iff in Hb. destruct Hb as [Hx Ht].
    rewrite Hx. apply IH, Ht.
Qed.

(** X1. Every item [get_spine_items] returns is an [EpubHtml] item of the
    book whose id is listed in the spine, and there are at most as many as
    spine entries. *)
Theorem get_spine_items_sound (b : book) :
  Forall (fun it => is_EpubHtml it = true /\ In it (get_items b) /\
                    exists entry, In entry (spine b) /\ get_id it = fst entry)
         (get_spine_items b) /\
  length (get_spine_items b) <= length (spine b).
Proof.
  destruct b as [m sp items]. unfold get_spine_items. cbn [spine get_items].
  induction sp as [|entry rest [IH1 IH2]]; [split; [constructor | reflexivity]|].
  cbn [flat_map]. split.
  - apply Forall_app. split.
    + destruct (List.find _ items) as [it|] eqn:E; [|constructor].
      destruct (is_EpubHtml it) eqn:Eh; [|constructor].
      apply List.find_some in E. destruct E as [Hin Hid]. apply str_eqb_eq in Hid.
      repeat constructor; [exact Eh | exact Hin |].
      exists entry. split; [left; reflexivity | exact Hid].
    + eapply Forall_impl; [exact IH1|]. cbn.
      intros it [H1 [H2 [entry' [H3 H4]]]]. repeat split; try assumption.
      exists entry'. split; [right; exact H3 | exact H4].
  - rewrite length_app. cbn [length].
    destruct (List.find _ items) as [it|]; [destruct (is_EpubHtml it)|]; cbn; lia.
Qed.

(** X2. Reading order is kept and the first item carrying the id decides: a
    spine entry whose first matching item is [it] contributes [it] when it
    is an [EpubHtml] and nothing otherwise, whatever items follow, between
    what the entries before and after it contribute. *)
Theorem get_spine_items_first_match
    (m : str -> str -> result (list meta_value)) (pre post : list (str * str))
    (entry : str * str) (before after : list item) (it : item) :
  existsb (fun x => str_eqb (get_id x) (fst entry)) before = false ->
  get_id it = fst entry ->
  get_spine_items (Book m (pre ++ entry :: post) (before ++ it :: after)) =
  get_spine_items (Book m pre (before ++ it :: after))
  ++ (if is_EpubHtml it then [it] else [])
  ++ get_spine_items (Book m post (before ++ it :: after)).
Proof.
  intros Hb Hid. rewrite get_spine_items_app. f_equal.
  change (entry :: post) with ([entry] ++ post). rewrite get_spine_items_app. f_equal.
  unfold get_spine_items. cbn [spine get_items flat_map].
  rewrite (find_first_match _ _ _ _ Hb Hid), app_nil_r. reflexivity.
Qed.

Lemma get_spine_items_first_match_witness :
  get_spine_items
    (Book (Sample.metadata []) [(py "a", py "yes"); (py "b", py "yes"); (py "c", py "no")]
          ([Item (py "c") true (Ok (Text []))]
           ++ Item (py "b") false (Ok (Text [])) :: [Item (py "b") true (Ok (Text []))]))
  = [] ++ [] ++ [Item (py "c") true (Ok (Text []))].
Proof.
  apply (get_spine_items_first_match (Sample.metadata []) [(py "a", py "yes")]
           [(py "c", py "no")] (py "b", py "yes")
           [Item (py "c") true (Ok (Text []))] [Item (py "b") true (Ok (Text []))]
           (Item (py "b") false (Ok (Text [])))); reflexivity.
Defined.

(** ** [clean_filename], once more *)

Lemma is_unsafe_LT : is_unsafe LT = true.
Proof. reflexivity. Qed.

Lemma sub_tags_id (s : str) : has_unsafe s = false -> sub_tags s = s.
Proof.
  unfold sub_tags, has_unsafe. induction s as [|c t IH]; [reflexivity|].
  cbn [existsb sub_tags_from]. rewrite orb_false_iff. intros [Hc Ht].
  destruct (char_eqb c LT) eqn:E.
  - apply char_eqb_eq in E. subst c. rewrite is_unsafe_LT in Hc. discriminate.
  - f_equal. apply IH, Ht.
Qed.

Lemma sub_unsafe_id (s : str) : has_unsafe s = false -> sub_unsafe s = s.
Proof.
  unfold sub_unsafe, has_unsafe. induction s as [|c t IH]; [reflexivity|].
  cbn [existsb List.map]. rewrite orb_false_iff. intros [Hc Ht].
  rewrite Hc. f_equal. apply IH, Ht.
Qed.

Lemma sub_spaces_from_id (s : str) : forall b,
  (b = true -> starts_with_space s = false) ->
  has_space_run s = false -> spaces_are_SP s = true ->
  sub_spaces_from b s = s.
Proof.
  unfold spaces_are_SP. induction s as [|c t IH]; intros b Hb Hrun Hsp; [reflexivity|].
  cbn [forallb] in Hsp. apply andb_true_iff in Hsp. destruct Hsp as [Hc Ht].
  assert (Hrun' : has_space_run t = false)
    by apply (has_space_run_app_r [c] t Hrun).
  cbn [sub_spaces_from]. destruct (isspace c) eqn:Ec.
  - destruct b; [specialize (Hb eq_refl); cbn in Hb; congruence|].
    cbn [negb orb] in Hc. apply char_eqb_eq in Hc. f_equal; [symmetry; exact Hc|].
    apply IH; [intros _ | exact Hrun' | exact Ht].
    destruct t as [|d t']; [reflexivity|].
    change (isspace c && isspace d || has_space_run (d :: t') = false) in Hrun.
    apply orb_false_iff in Hrun. destruct Hrun as [H _].
    rewrite Ec in H. exact H.
  - f_equal. apply IH; [discriminate | exact Hrun' | exact Ht].
Qed.

Lemma spaces_are_SP_app (a b : str) :
  spaces_are_SP (a ++ b) = spaces_are_SP a && spaces_are_SP b.
Proof. apply forallb_app. Qed.

Lemma spaces_are_SP_sub_spaces (s : str) : forall b,
  spaces_are_SP (sub_spaces_from b s) = true.
Proof.
  unfold spaces_are_SP. induction s as [|c t IH]; intros b; [reflexivity|].
  cbn [sub_spaces_from]. destruct (isspace c) eqn:Ec.
  - destruct b; [apply IH|]. cbn [forallb]. rewrite IH. reflexivity.
  - cbn [forallb]. rewrite Ec, IH. reflexivity.
Qed.

Lemma spaces_are_SP_sanitized (title : str) : spaces_are_SP (sanitized title) = true.
Proof.
  unfold sanitized.
  destruct (strip_split (sub_spaces (sub_unsafe (sub_tags title)))) as [a [b Hs]].
  pose proof (spaces_are_SP_sub_spaces (sub_unsafe (sub_tags title)) false) as H.
  fold (sub_spaces (sub_unsafe (sub_tags title))) in H.
  rewrite Hs, !spaces_are_SP_app, !andb_true_iff in H. tauto.
Qed.

(** A title that is already clean is left as it is by the first three steps. *)
Lemma sanitized_id (s : str) :
  has_unsafe s = false -> has_space_run s = false -> spaces_are_SP s = true ->
  starts_with_space s = false -> ends_with_space s = false ->
  sanitized s = s.
Proof.
  intros Hu Hr Hsp Hl Ht. unfold sanitized.
  rewrite (sub_tags_id _ Hu), (sub_unsafe_id _ Hu).
  unfold sub_spaces. rewrite (sub_spaces_from_id s false); try assumption; [|discriminate].
  apply strip_id; assumption.
Qed.

Lemma rstrip_length (s : str) : length (rstrip s) <= length s.
Proof.
  destruct (rstrip_split s) as [ws [Hs _]].
  rewrite Hs at 2. rewrite length_app. lia.
Qed.

Lemma rstrip_parts (s : str) :
  has_unsafe s = false -> has_space_run s = false -> spaces_are_SP s = true ->
  starts_with_space s = false ->
  has_unsafe (rstrip s) = false /\ has_space_run (rstrip s) = false /\
  spaces_are_SP (rstrip s) = true /\ starts_with_space (rstrip s) = false.
Proof.
  intros Hu Hr Hsp Hl. destruct (rstrip_split s) as [ws [Hs _]].
  rewrite Hs in Hu, Hr, Hsp.
  rewrite has_unsafe_app, orb_false_iff in Hu.
  rewrite spaces_are_SP_app, andb_true_iff in Hsp.
  repeat split; [tauto | eapply has_space_run_app_l, Hr | tauto | apply rstrip_no_lead, Hl].
Qed.

(** X3. Sanitizing is idempotent up to the cut: the sanitized title is a
    fixed point of the three substitutions and the trim, and cleaning a
    cleaned file name again only trims the white space that the cut at 100
    characters may have left at its end. *)
Theorem clean_filename_again (title : str) :
  sanitized (sanitized title) = sanitized title /\
  clean_filename (clean_filename title) = rstrip (clean_filename title) /\
  (if length (sanitized title) <=? 100
   then clean_filename (clean_filename title) = clean_filename title else True).
Proof.
  pose proof (has_unsafe_sanitized title) as Hu.
  assert (Hr : has_space_run (sanitized title) = false)
    by apply has_space_run_strip, sub_spaces_no_run.
  pose proof (spaces_are_SP_sanitized title) as Hsp.
  pose proof (strip_no_lead (sub_spaces (sub_unsafe (sub_tags title)))) as Hl.
  pose proof (strip_no_trail (sub_spaces (sub_unsafe (sub_tags title)))) as Ht.
  fold (sanitized title) in Hl, Ht.
  assert (Hfix : sanitized (sanitized title) = sanitized title)
    by (apply sanitized_id; assumption).
  assert (Hsecond : clean_filename (clean_filename title) = rstrip (clean_filename title)).
  { rewrite (clean_filename_take title).
    set (c := take 100 (sanitized title)).
    assert (Hcu : has_unsafe c = false) by apply has_unsafe_take, Hu.
    assert (Hcr : has_space_run c = false) by apply has_space_run_take, Hr.
    assert (Hcs : spaces_are_SP c = true).
    { rewrite <- (take_drop 100 (sanitized title)), spaces_are_SP_app, andb_true_iff in Hsp.
      tauto. }
    assert (Hcl : starts_with_space c = false).
    { unfold c. destruct (sanitized title); [reflexivity | exact Hl]. }
    destruct (rstrip_parts c Hcu Hcr Hcs Hcl) as [H1 [H2 [H3 H4]]].
    rewrite clean_filename_take.
    assert (Hsc : sanitized c = rstrip c).
    { unfold sanitized. rewrite (sub_tags_id _ Hcu), (sub_unsafe_id _ Hcu).
      unfold sub_spaces. rewrite (sub_spaces_from_id c false); try assumption; [|discriminate].
      unfold strip. rewrite (lstrip_id _ Hcl). reflexivity. }
    rewrite Hsc. apply take_ge.
    pose proof (rstrip_length c). unfold c in *. rewrite length_take in *. lia. }
  split; [exact Hfix|]. split; [exact Hsecond|].
  destruct (length (sanitized title) <=? 100) eqn:E; [|exact I].
  apply Nat.leb_le in E. rewrite Hsecond, clean_filename_take.
  rewrite take_ge by lia. apply rstrip_id, Ht.
Qed.

Lemma has_unsafe_uint_chars (d : Decimal.uint) : has_unsafe (uint_chars d) = false.
Proof. induction d; [reflexivity | exact IHd ..]. Qed.

Lemma has_unsafe_zeros (k : nat) : has_unsafe (repeat 48%N k) = false.
Proof. induction k as [|k IH]; [reflexivity | exact IH]. Qed.

Lemma str_of_nat_length_pos (i : nat) : 1 <= length (str_of_nat i).
Proof.
  unfold str_of_nat. destruct (Nat.to_uint i) eqn:E; cbn; try lia.
  exfalso. pose proof (f_equal Nat.of_uint E) as E'. rewrite Unsigned.of_to in E'.
  cbn in E'. subst i. discriminate E.
Qed.

Lemma clean_filename_safe_parts (title : str) :
  has_unsafe (clean_filename title) = false /\ length (clean_filename title) <= 100.
Proof.
  rewrite clean_filename_take. split.
  - apply has_unsafe_take, has_unsafe_sanitized.
  - rewrite length_take. lia.
Qed.

(** X4. A chapter file name holds none of the nine unsafe characters, so no
    path separator: the file is a direct child of the output directory
    whatever the title.  It is at most 104 characters longer than its
    number, which takes two characters or the number of digits of the
    position. *)
Theorem chapter_filename_is_plain_name (i : nat) (title : str) :
  has_unsafe (chapter_filename i title) = false /\
  existsb (fun c => char_eqb c (chr "/") || char_eqb c (chr "\"))
          (chapter_filename i title) = false /\
  length (chapter_filename i title) <= length (fmt_02d i) + 104 /\
  length (fmt_02d i) = Nat.max 2 (length (str_of_nat i)).
Proof.
  assert (Hu : has_unsafe (chapter_filename i title) = false).
  { unfold chapter_filename, fmt_02d, str_of_nat. cbv zeta.
    rewrite !has_unsafe_app, has_unsafe_zeros, has_unsafe_uint_chars.
    pose proof (clean_filename_safe_parts title) as [H _]. rewrite H. reflexivity. }
  split; [exact Hu|]. split; [|split].
  - unfold has_unsafe in Hu. induction (chapter_filename i title) as [|c t IH];
      [reflexivity|].
    cbn [existsb] in *. apply orb_false_iff in Hu. destruct Hu as [Hc Ht].
    rewrite (IH Ht), orb_false_r. unfold is_unsafe in Hc.
    rewrite !orb_false_iff in Hc. rewrite orb_false_iff. tauto.
  - unfold chapter_filename. rewrite !length_app.
    pose proof (clean_filename_safe_parts title) as [_ H].
    assert (H1 : length (py "_") = 1) by reflexivity.
    assert (H3 : length (py ".md") = 3) by reflexivity.
    rewrite H1, H3. lia.
  - unfold fmt_02d. cbv zeta. rewrite length_app, repeat_length.
    pose proof (str_of_nat_length_pos i).
    destruct (Nat.max_spec 2 (length (str_of_nat i))) as [[? ->]|[? ->]];
      unfold char in *; lia.
Qed.

(** ** The node tree *)

(** Induction on a tree, with the hypothesis for every child of a tag. *)
Lemma node_nested_ind (P : node -> Prop) :
  (forall t, P (NavigableString t)) ->
  (forall t, P (SpecialString t)) ->
  (forall nm cs, Forall P cs -> P (Tag nm cs)) ->
  forall n, P n.
Proof.
  intros Hn Hs Ht. fix IH 1. intros [t|t|nm cs]; [apply Hn | apply Hs | apply Ht].
  induction cs as [|c cs IHcs]; constructor; [apply IH | exact IHcs].
Qed.

Lemma find_all_app (names : list str) (a b : soup) :
  find_all names (a ++ b) = find_all names a ++ find_all names b.
Proof.
  unfold find_all, descendants. rewrite flat_map_app. apply List.filter_app.
Qed.

Lemma find_all_cons (names : list str) (n : node) (s : soup) :
  find_all names (n :: s) = find_all names [n] ++ find_all names s.
Proof. apply (find_all_app names [n] s). Qed.

Lemma find_all_tag (names : list str) (nm : str) (cs : list node) :
  find_all names [Tag nm cs] =
  (if existsb (str_eqb nm) names then [Tag nm cs] else []) ++ find_all names cs.
Proof.
  unfold find_all, descendants. cbn [flat_map self_and_descendants].
  rewrite app_nil_r. cbn [List.filter tag_named].
  destruct (existsb (str_eqb nm) names); reflexivity.
Qed.

Lemma find_all_decompose_named (names : list str) (n : node) :
  find_all names (decompose_named names n) = [].
Proof.
  induction n as [t|t|nm cs IH] using node_nested_ind; [reflexivity..|].
  cbn [decompose_named]. destruct (existsb (str_eqb nm) names) eqn:E; [reflexivity|].
  rewrite find_all_tag, E. cbn [app].
  induction IH as [|c cs Hc _ IHcs]; [reflexivity|].
  cbn [flat_map]. rewrite find_all_app, Hc, IHcs. reflexivity.
Qed.

Lemma decompose_named_id (names : list str) (n : node) :
  find_all names [n] = [] -> decompose_named names n = [n].
Proof.
  induction n as [t|t|nm cs IH] using node_nested_ind; [reflexivity..|].
  rewrite find_all_tag. cbn [decompose_named].
  destruct (existsb (str_eqb nm) names); [discriminate|].
  cbn [app]. intros H. f_equal. f_equal.
  induction IH as [|c cs Hc _ IHcs]; [reflexivity|].
  rewrite find_all_cons in H. apply app_eq_nil in H. destruct H as [H1 H2].
  cbn [flat_map]. rewrite (Hc H1), (IHcs H2). reflexivity.
Qed.

Lemma decompose_all_id (names : list str) (s : soup) :
  find_all names s = [] -> decompose_all names s = s.
Proof.
  unfold decompose_all. induction s as [|n s IH]; [reflexivity|].
  rewrite find_all_cons. intros H. apply app_eq_nil in H. destruct H as [H1 H2].
  cbn [flat_map]. rewrite (decompose_named_id _ _ H1), (IH H2). reflexivity.
Qed.

Lemma find_all_decompose_all (names : list str) (s : soup) :
  find_all names (decompose_all names s) = [].
Proof.
  unfold decompose_all. induction s as [|n s IH]; [reflexivity|].
  cbn [flat_map]. rewrite find_all_app, find_all_decompose_named, IH. reflexivity.
Qed.

(** X5. After the removal loop of [html_to_markdown] no element with one of
    the given names is left at any depth, and running the loop again changes
    nothing. *)
Theorem decompose_all_complete (names : list str) (s : soup) :
  find_all names (decompose_all names s) = [] /\
  decompose_all names (decompose_all names s) = decompose_all names s.
Proof.
  split; [apply find_all_decompose_all | apply decompose_all_id, find_all_decompose_all].
Qed.

(** ** The title *)

Lemma extract_title_strip_form (lower : str -> str) (isdecimal : char -> bool) (s : soup) :
  exists t, extract_title_from_content lower isdecimal s = strip t.
Proof.
  unfold extract_title_from_content.
  destruct (first_heading s heading_tags) as [t|] eqn:E.
  - revert E. generalize heading_tags. intros tags.
    induction tags as [|tag rest IH]; [discriminate|].
    cbn [first_heading]. unfold heading_title at 1.
    destruct (find tag s) as [element|]; [|exact IH].
    cbv zeta. destruct (nonblank (strip (get_text element))); [|exact IH].
    intros [= <-]. eexists. reflexivity.
  - rewrite first_chapter_line_find.
    destruct (List.find _ _) as [e|]; cbn [option_map].
    + eexists. reflexivity.
    + exists (py "Untitled Chapter"). reflexivity.
Qed.

Lemma first_heading_nonblank (s : soup) (tags : list str) (t : str) :
  first_heading s tags = Some t -> nonblank t = true.
Proof.
  induction tags as [|tag rest IH]; [discriminate|].
  cbn [first_heading]. destruct (heading_title s tag) as [t'|] eqn:E; [|exact IH].
  intros [= <-]. eapply heading_title_nonblank, E.
Qed.

Lemma extract_title_nonblank (lower : str -> str) (isdecimal : char -> bool) (s : soup) :
  lower [] = [] -> nonblank (extract_title_from_content lower isdecimal s) = true.
Proof.
  intros Hlow. unfold extract_title_from_content.
  destruct (first_heading s heading_tags) as [t|] eqn:E;
    [eapply first_heading_nonblank, E|].
  destruct (first_chapter_line _ _ _) as [t|] eqn:E'; [|reflexivity].
  eapply first_chapter_line_nonblank; [exact Hlow | exact E'].
Qed.

(** X6. Whatever the tree, the resolved title has no leading and no
    trailing white space: each branch returns stripped text or the
    literal. *)
Theorem extract_title_stripped (lower : str -> str) (isdecimal : char -> bool) (s : soup) :
  starts_with_space (extract_title_from_content lower isdecimal s) = false /\
  ends_with_space (extract_title_from_content lower isdecimal s) = false /\
  strip (extract_title_from_content lower isdecimal s)
    = extract_title_from_content lower isdecimal s.
Proof.
  destruct (extract_title_strip_form lower isdecimal s) as [t ->].
  split; [apply strip_no_lead|]. split; [apply strip_no_trail | apply strip_idempotent].
Qed.

(** ** The converter *)

Lemma without_newlines_app (a b : str) :
  without_newlines (a ++ b) = without_newlines a ++ without_newlines b.
Proof. apply List.filter_app. Qed.

Lemma without_newlines_newline_run (run : nat) : without_newlines (newline_run run) = [].
Proof.
  unfold newline_run. generalize (if 3 <=? run then 2 else run). intros k.
  induction k as [|k IH]; [reflexivity | exact IH].
Qed.

Lemma newline_run_length (run : nat) : length (newline_run run) <= run.
Proof.
  unfold newline_run. rewrite repeat_length.
  destruct (3 <=? run) eqn:E; [apply Nat.leb_le in E; lia | lia].
Qed.

Lemma sub_newlines_from_text (s : str) : forall run,
  without_newlines (sub_newlines_from run s) = without_newlines s /\
  length (sub_newlines_from run s) <= run + length s.
Proof.
  induction s as [|c t IH]; intros run; cbn [sub_newlines_from].
  - split; [apply without_newlines_newline_run|].
    pose proof (newline_run_length run). cbn [length]. lia.
  - destruct (char_eqb c NL) eqn:E.
    + destruct (IH (S run)) as [H1 H2]. split.
      * rewrite H1. unfold without_newlines. cbn [List.filter]. rewrite E. reflexivity.
      * cbn [length]. lia.
    + destruct (IH 0) as [H1 H2]. split.
      * rewrite without_newlines_app, without_newlines_newline_run.
        unfold without_newlines in *. cbn [List.filter app]. rewrite E.
        cbn [negb]. f_equal. exact H1.
      * pose proof (newline_run_length run).
        rewrite length_app. cbn [length]. lia.
Qed.

(** X7. The newline substitution of [html_to_markdown] only drops newlines:
    the text between them is unchanged and in order, and the result is
    never longer than the input. *)
Theorem sub_newlines_keeps_text (s : str) :
  without_newlines (sub_newlines s) = without_newlines s /\
  length (sub_newlines s) <= length s.
Proof. apply (sub_newlines_from_text s 0). Qed.

(** X8. What [html_to_markdown] returns is already stripped, so that the
    second [strip] in [process_chapters] changes nothing and an item is
    skipped for lack of content exactly when the converter returns the
    empty string; and it raises only what the parser or the renderer
    raised, the renderer being given a tree without script, style, meta and
    link elements. *)
Theorem html_to_markdown_stripped
    (BeautifulSoup : str -> result soup) (soup_str : soup -> str)
    (md : str -> result str) (html_content : str) :
  match html_to_markdown BeautifulSoup soup_str md html_content with
  | Ok out =>
      strip out = out /\ nonblank (strip out) = nonblank out /\
      exists s m, BeautifulSoup html_content = Ok s /\
                  find_all [py "script"; py "style"; py "meta"; py "link"]
                    (decompose_all [py "script"; py "style"; py "meta"; py "link"] s) = [] /\
                  md (soup_str (decompose_all [py "script"; py "style"; py "meta"; py "link"] s))
                    = Ok m /\
                  out = normalize_blank_lines m
  | Raise e =>
      BeautifulSoup html_content = Raise e \/
      exists s, BeautifulSoup html_content = Ok s /\
                md (soup_str (decompose_all [py "script"; py "style"; py "meta"; py "link"] s))
                  = Raise e
  end.
Proof.
  unfold html_to_markdown, rbind.
  destruct (BeautifulSoup html_content) as [s|e]; [|left; reflexivity].
  destruct (md _) as [m|e] eqn:E; [|right; exists s; split; [reflexivity | exact E]].
  assert (H : strip (normalize_blank_lines m) = normalize_blank_lines m)
    by apply strip_idempotent.
  split; [exact H|]. split; [rewrite H; reflexivity|].
  exists s, m. repeat split; [|exact E].
  apply find_all_decompose_all.
Qed.

Lemma html_to_markdown_parts
    (BeautifulSoup : str -> result soup) (soup_str : soup -> str)
    (md : str -> result str) (html_content : str) :
  match html_to_markdown BeautifulSoup soup_str md html_content with
  | Ok out => strip out = out /\ has_newline_run3 out = false
  | Raise _ => True
  end.
Proof.
  unfold html_to_markdown, rbind.
  destruct (BeautifulSoup html_content) as [s|e]; [|exact I].
  destruct (md _) as [m|e]; [|exact I].
  split; [apply strip_idempotent | apply normalize_no_run3].
Qed.

(** ** The chapter pipeline, further *)

Section PipelineMore.

Variable lower : str -> str.
Variable isdecimal : char -> bool.
Variable decode_utf8 : list Byte.byte -> result str.
Variable BeautifulSoup : str -> result soup.
Variable soup_str : soup -> str.
Variable md : str -> result str.

#[warnings="-notation-for-abbreviation"] Notation outcome_of' :=
  (item_outcome lower isdecimal decode_utf8 BeautifulSoup soup_str md).
#[warnings="-notation-for-abbreviation"] Notation accepted' :=
  (accepted_chapters lower isdecimal decode_utf8 BeautifulSoup soup_str md).

Lemma outcome_lines_length (i : nat) (os : list outcome) :
  length (outcome_lines i os) = length os.
Proof. unfold outcome_lines. rewrite length_map. apply enumerate_length. Qed.

(** X9. [process_chapters] never raises and never touches the file system,
    whatever the items do: it returns the chapters of the accepted items
    and prints the count followed by one line per spine item.  An item
    whose processing raises [e] at index [k] of the spine items is reported
    as item [k + 1] with [e] on its line. *)
Theorem process_chapters_contains_errors (b : book) (w : world) :
  fst (process_chapters lower isdecimal decode_utf8 BeautifulSoup soup_str md b w)
    = Ok (accepted' (get_spine_items b)) /\
  fs_calls (snd (process_chapters lower isdecimal decode_utf8 BeautifulSoup soup_str md b w))
    = fs_calls w /\
  stdout (snd (process_chapters lower isdecimal decode_utf8 BeautifulSoup soup_str md b w))
    = stdout w ++ Found_items_in_spine (length (get_spine_items b))
        :: outcome_lines 1 (List.map outcome_of' (get_spine_items b)) /\
  length (outcome_lines 1 (List.map outcome_of' (get_spine_items b)))
    = length (get_spine_items b) /\
  forall (k : nat) (it : item) (e : exn),
    get_spine_items b !! k = Some it ->
    outcome_of' it = Failed e ->
    stdout (snd (process_chapters lower isdecimal decode_utf8 BeautifulSoup soup_str md b w))
      !! (length (stdout w) + S k) = Some (Error_processing_item (S k) e).
Proof.
  rewrite process_chapters_run. cbn [fst snd stdout fs_calls].
  repeat split.
  - rewrite outcome_lines_length, length_map. reflexivity.
  - intros k it e Hk He. rewrite lookup_app_r by lia.
    replace (length (stdout w) + S k - length (stdout w)) with (S k) by lia.
    cbn [lookup list_lookup].
    apply (failed_item_logged lower isdecimal decode_utf8 BeautifulSoup soup_str md
             _ _ _ _ Hk He).
Qed.

Lemma accepted_chapters_app (xs ys : list item) :
  accepted' (xs ++ ys) = accepted' xs ++ accepted' ys.
Proof. unfold accepted_chapters. apply flat_map_app. Qed.

(** X10. An item that is skipped or fails leaves the others alone: the
    chapters of a list of items with such an item in it are the chapters of
    the items before it followed by those of the items after it. *)
Theorem rejected_item_is_isolated
    (before after : list item) (it : item) (w : world) :
  (forall c, outcome_of' it <> Accepted c) ->
  fst (process_items lower isdecimal decode_utf8 BeautifulSoup soup_str md 1
         (before ++ it :: after) [] w)
  = Ok (accepted' before ++ accepted' after).
Proof.
  intros H. rewrite process_items_run. cbn [fst app]. f_equal.
  rewrite accepted_chapters_app. f_equal.
  unfold accepted_chapters. cbn [flat_map].
  destruct (outcome_of' it) as [c| | |]; [destruct (H c); reflexivity | reflexivity..].
Qed.

(** X11. Every chapter the pipeline accepts has a title that is not empty
    and is stripped, and a content that is not empty, is stripped and holds
    no run of three newlines. *)
Theorem accepted_chapters_well_formed (items : list item) :
  lower [] = [] ->
  Forall (fun c => nonblank (fst c) = true /\ strip (fst c) = fst c /\
                   nonblank (snd c) = true /\ strip (snd c) = snd c /\
                   has_newline_run3 (snd c) = false)
         (accepted' items).
Proof.
  intros Hlow. unfold accepted_chapters.
  induction items as [|it rest IH]; [constructor|].
  cbn [flat_map]. apply Forall_app. split; [|exact IH].
  unfold item_outcome.
  destruct (get_content it) as [content|]; [|constructor].
  destruct (match content with Bytes b => decode_utf8 b | Text s => Ok s end)
    as [html_content|]; [|constructor].
  destruct (BeautifulSoup html_content) as [s|]; [|constructor].
  cbv zeta. destruct (length (strip (soup_get_text s)) <? 100); [constructor|].
  pose proof (html_to_markdown_parts BeautifulSoup soup_str md html_content) as Hmd.
  destruct (html_to_markdown BeautifulSoup soup_str md html_content) as [m|];
    [|constructor].
  destruct Hmd as [Hs Hr].
  destruct (nonblank (strip m)) eqn:En; [|constructor].
  repeat constructor; cbn [fst snd].
  - apply extract_title_nonblank, Hlow.
  - destruct (extract_title_strip_form lower isdecimal s) as [t ->].
    apply strip_idempotent.
  - rewrite Hs in En. exact En.
  - exact Hs.
  - exact Hr.
Qed.

End PipelineMore.

Lemma process_chapters_contains_errors_witness :
  get_spine_items Sample.book_bad_bytes !! 1
    = Some (Item (py "bad") true (Ok (Bytes [Byte.xff]))) /\
  stdout (snd (process_chapters ascii_lower ascii_isdecimal Sample.decode_utf8
                 Sample.BeautifulSoup Sample.soup_str Sample.md
                 Sample.book_bad_bytes (World [] []))) !! (0 + 2)
    = Some (Error_processing_item 2 UnicodeDecodeError).
Proof.
  split; [reflexivity|].
  exact (proj2 (proj2 (proj2 (proj2
           (process_chapters_contains_errors ascii_lower ascii_isdecimal
              Sample.decode_utf8 Sample.BeautifulSoup Sample.soup_str Sample.md
              Sample.book_bad_bytes (World [] [])))))
           1 (Item (py "bad") true (Ok (Bytes [Byte.xff]))) UnicodeDecodeError
           eq_refl eq_refl).
Defined.

Lemma rejected_item_is_isolated_witness :
  fst (process_items ascii_lower ascii_isdecimal Sample.decode_utf8 Sample.BeautifulSoup
         Sample.soup_str Sample.md 1
         ([Sample.html_item (py "c1") (py "Chapter 1", Sample.long_text)]
          ++ Sample.html_item (py "c2") (py "Cover", py "cover")
          :: [Sample.html_item (py "c3") (py "Chapter 2", Sample.long_text)])
         [] (World [] []))
  = Ok (accepted_chapters ascii_lower ascii_isdecimal Sample.decode_utf8
          Sample.BeautifulSoup Sample.soup_str Sample.md
          [Sample.html_item (py "c1") (py "Chapter 1", Sample.long_text)]
        ++ accepted_chapters ascii_lower ascii_isdecimal Sample.decode_utf8
             Sample.BeautifulSoup Sample.soup_str Sample.md
             [Sample.html_item (py "c3") (py "Chapter 2", Sample.long_text)]).
Proof.
  apply (rejected_item_is_isolated ascii_lower ascii_isdecimal Sample.decode_utf8
           Sample.BeautifulSoup Sample.soup_str Sample.md).
  intros c H. vm_compute in H. discriminate H.
Defined.

Lemma accepted_chapters_well_formed_witness :
  ascii_lower [] = [] /\
  Forall (fun c => nonblank (fst c) = true /\ strip (fst c) = fst c /\
                   nonblank (snd c) = true /\ strip (snd c) = snd c /\
                   has_newline_run3 (snd c) = false)
         (accepted_chapters ascii_lower ascii_isdecimal Sample.decode_utf8
            Sample.BeautifulSoup Sample.soup_str Sample.md
            (get_items Sample.book_five)).
Proof.
  split; [reflexivity|].
  apply (accepted_chapters_well_formed ascii_lower ascii_isdecimal Sample.decode_utf8
           Sample.BeautifulSoup Sample.soup_str Sample.md). reflexivity.
Defined.

(** ** The writers, further *)

Section WritersMore.

Variable fs_raises : list fs_op -> fs_op -> option exn.

Lemma save_each_report (dir : str) (chapters : list chapter) : forall i w,
  save_each fs_raises dir i chapters w =
  (Ok tt,
   World (stdout w ++ save_report fs_raises dir (fs_calls w) (enumerate i chapters))
         (fs_calls w ++ List.map (chapter_write dir) (enumerate i chapters))).
Proof.
  induction chapters as [|[title content] rest IH]; intros i w.
  - cbn. rewrite !app_nil_r. destruct w; reflexivity.
  - cbn [save_each enumerate save_report List.map]. cbv zeta. unfold bind at 1.
    unfold try_except, bind, fs_call, print, chapter_write, chapter_filename.
    cbn [fst snd].
    match goal with
    | |- context [fs_raises ?a ?b] => destruct (fs_raises a b) as [e|]
    end;
      cbn [stdout fs_calls]; rewrite IH; cbn [stdout fs_calls fst snd];
      unfold chapter_write, chapter_filename; rewrite <- !app_assoc; reflexivity.
Qed.

Lemma save_report_length (dir : str) (numbered : list (nat * chapter)) : forall before,
  length (save_report fs_raises dir before numbered) = length numbered.
Proof.
  induction numbered as [|ic rest IH]; intros before; [reflexivity|].
  cbn [save_report length]. f_equal. apply IH.
Qed.

(** X12. [save_chapters] stops only when the directory cannot be made, and
    then before any write.  Otherwise it returns normally whatever the
    writes do: it attempts one write per chapter, in order, prints for each
    either the saved line or the error of that write, and ends with the
    summary line, which counts all chapters, those whose write failed
    included. *)
Theorem save_chapters_reports_every_chapter
    (dir : str) (chapters : list chapter) (w : world) :
  save_chapters fs_raises dir chapters w =
  match fs_raises (fs_calls w) (Mkdir_exist_ok dir) with
  | Some e => (Raise e, World (stdout w) (fs_calls w ++ [Mkdir_exist_ok dir]))
  | None =>
      (Ok tt,
       World (stdout w ++ [Saving_chapters_to dir]
                ++ save_report fs_raises dir (fs_calls w ++ [Mkdir_exist_ok dir])
                     (enumerate 1 chapters)
                ++ [Completed (length chapters) dir])
             (fs_calls w ++ Mkdir_exist_ok dir
                :: List.map (chapter_write dir) (enumerate 1 chapters)))
  end /\
  length (save_report fs_raises dir (fs_calls w ++ [Mkdir_exist_ok dir])
            (enumerate 1 chapters)) = length chapters.
Proof.
  split; [|rewrite save_report_length; apply enumerate_length].
  unfold save_chapters. unfold bind at 1. unfold fs_call at 1.
  destruct (fs_raises (fs_calls w) (Mkdir_exist_ok dir)) as [e|]; [reflexivity|].
  unfold bind at 1, print at 1. cbn [stdout fs_calls].
  unfold bind at 1. rewrite save_each_report. cbn [stdout fs_calls].
  unfold print. cbn [stdout fs_calls]. rewrite <- !app_assoc. reflexivity.
Qed.

End WritersMore.

(** ** Book metadata, further *)

Lemma str_items_cases (vs : list pyvalue) :
  (exists parts, str_items vs = Ok parts) \/ str_items vs = Raise TypeError.
Proof.
  induction vs as [|[s|] rest IH]; cbn [str_items rbind].
  - left. exists []. reflexivity.
  - destruct IH as [[parts ->] | ->]; [left; eexists; reflexivity | right; reflexivity].
  - right. reflexivity.
Qed.

Lemma str_items_have_text (xs : list meta_value) :
  if forallb has_text xs
  then exists parts, str_items (List.map fst xs) = Ok parts
  else str_items (List.map fst xs) = Raise TypeError.
Proof.
  induction xs as [|[[s|] attrs] rest IH];
    cbn [forallb List.map str_items fst andb rbind has_text].
  - exists []. reflexivity.
  - destruct (forallb has_text rest);
      [destruct IH as [parts ->]; eexists; reflexivity|].
    rewrite IH. reflexivity.
  - reflexivity.
Qed.

(** [get_book_info], one entry per [try] block. *)
Lemma get_book_info_run (b : book) :
  get_book_info (Some b) =
  (t <~ first_value_entry (get_metadata b DC (py "title")) ;;
   a <~ author_entry (get_metadata b DC (py "creator")) ;;
   l <~ first_value_entry (get_metadata b DC (py "language")) ;;
   Ok (<["language" := l]> (<["author" := a]> (<["title" := t]> ∅))))%python.
Proof.
  unfold get_book_info, first_value_entry, author_entry. cbv zeta.
  destruct (get_metadata b DC (py "title")) as [[|t ts]|[]];
    destruct (get_metadata b DC (py "creator")) as [cs|[]];
    destruct (get_metadata b DC (py "language")) as [[|l ls]|[]];
    cbn [rbind except_index_key first_first]; try reflexivity;
    destruct (str_items_cases (List.map fst cs)) as [[parts ->] | ->]; reflexivity.
Qed.

Lemma first_value_entry_tolerated (r : result (list meta_value)) :
  tolerated r = true -> first_value_entry r = Ok (value_or_unknown r).
Proof. destruct r as [[|x xs]|[]]; try discriminate; reflexivity. Qed.

Lemma author_entry_tolerated (r : result (list meta_value)) :
  tolerated r = true ->
  author_entry r = if creators_have_text r then Ok (authors_or_unknown r)
                   else Raise TypeError.
Proof.
  destruct r as [xs|[]]; try discriminate; try reflexivity. intros _.
  unfold author_entry, authors_or_unknown, creator_texts, creators_have_text.
  cbn [rbind]. pose proof (str_items_have_text xs) as H.
  destruct (forallb has_text xs); [destruct H as [parts ->] | rewrite H]; reflexivity.
Qed.

(** X13. When each of the three metadata queries returns or raises
    [IndexError] or [KeyError] and no creator lacks a text, [get_book_info]
    returns: title and language are the first value, or Unknown when there
    is none or the query raised; author is the texts of all creators joined
    by a comma and a space, the empty string when there is no creator, and
    Unknown only when the query raised.  When a creator has no text, the
    join raises a [TypeError] that the handler does not catch. *)
Theorem get_book_info_tolerant (b : book) :
  tolerated (get_metadata b DC (py "title")) = true ->
  tolerated (get_metadata b DC (py "creator")) = true ->
  tolerated (get_metadata b DC (py "language")) = true ->
  get_book_info (Some b) =
  if creators_have_text (get_metadata b DC (py "creator")) then
    Ok (<["language" := value_or_unknown (get_metadata b DC (py "language"))]>
          (<["author" := authors_or_unknown (get_metadata b DC (py "creator"))]>
             (<["title" := value_or_unknown (get_metadata b DC (py "title"))]> ∅)))
  else Raise TypeError.
Proof.
  intros Ht Hc Hl. rewrite get_book_info_run.
  rewrite (first_value_entry_tolerated _ Ht), (author_entry_tolerated _ Hc),
    (first_value_entry_tolerated _ Hl).
  destruct (creators_have_text _); reflexivity.
Qed.

Lemma get_book_info_tolerant_witness :
  get_book_info (Some book_without_namespace) =
    Ok (<["language" := PyStr Unknown]>
          (<["author" := PyStr Unknown]> (<["title" := PyStr Unknown]> ∅))) /\
  get_book_info (Some book_empty_creator) = Raise TypeError.
Proof.
  split.
  - apply (get_book_info_tolerant book_without_namespace); reflexivity.
  - apply (get_book_info_tolerant book_empty_creator); reflexivity.
Defined.

Lemma first_value_entry_raises (r : result (list meta_value)) (e : exn) :
  first_value_entry r = Raise e -> e <> IndexError /\ e <> KeyError.
Proof.
  destruct r as [[|x xs]|[]]; cbn; try discriminate; intros [= <-]; split; discriminate.
Qed.

Lemma author_entry_raises (r : result (list meta_value)) (e : exn) :
  author_entry r = Raise e -> e <> IndexError /\ e <> KeyError.
Proof.
  unfold author_entry. destruct r as [xs|[]]; cbn; try discriminate;
    try (intros [= <-]; split; discriminate).
  destruct (str_items_cases (List.map fst xs)) as [[parts ->] | ->]; cbn;
    [discriminate | intros [= <-]; split; discriminate].
Qed.

(** A returned dictionary is the three entries and nothing else. *)
Lemma get_book_info_entries (b : book) (info : gmap string pyvalue) :
  get_book_info (Some b) = Ok info ->
  exists t a l,
    info = <["language" := l]> (<["author" := a]> (<["title" := t]> ∅)).
Proof.
  rewrite get_book_info_run. unfold rbind.
  destruct (first_value_entry _) as [t|]; [|discriminate].
  destruct (author_entry _) as [a|]; [|discriminate].
  destruct (first_value_entry _) as [l|]; [|discriminate].
  intros [= <-]. exists t, a, l. reflexivity.
Qed.

(** X14. What [get_book_info] returns for a book always has the three keys
    title, author and language and no other, so that the three lookups of
    [create_index_file] cannot fail; what it raises is never an
    [IndexError] or a [KeyError]; without a book it returns the empty
    dictionary. *)
Theorem get_book_info_keys (b : book) :
  match get_book_info (Some b) with
  | Ok info =>
      dom info = ({["title"; "author"; "language"]} : gset string) /\
      is_Some (info !! "title") /\ is_Some (info !! "author") /\
      is_Some (info !! "language")
  | Raise e => e <> IndexError /\ e <> KeyError
  end /\
  get_book_info None = Ok ∅.
Proof.
  split; [|reflexivity]. rewrite get_book_info_run. unfold rbind.
  destruct (first_value_entry (get_metadata b DC (py "title"))) as [t|e] eqn:Et;
    [|eapply first_value_entry_raises, Et].
  destruct (author_entry _) as [a|e] eqn:Ea; [|eapply author_entry_raises, Ea].
  destruct (first_value_entry (get_metadata b DC (py "language"))) as [l|e] eqn:El;
    [|eapply first_value_entry_raises, El].
  split; [rewrite !dom_insert_L, dom_empty_L; set_solver|].
  repeat split; eexists; simplify_map_eq; reflexivity.
Qed.

Lemma chapter_filename_safe (i : nat) (title : str) :
  has_unsafe (chapter_filename i title) = false.
Proof.
  unfold chapter_filename, fmt_02d, str_of_nat. cbv zeta.
  rewrite !has_unsafe_app, has_unsafe_zeros, has_unsafe_uint_chars.
  pose proof (clean_filename_safe_parts title) as [H _]. rewrite H. reflexivity.
Qed.

(** ** The index, the loader and the entry point *)

Section RunMore.

Variable lower : str -> str.
Variable isdecimal : char -> bool.
Variable decode_utf8 : list Byte.byte -> result str.
Variable BeautifulSoup : str -> result soup.
Variable soup_str : soup -> str.
Variable md : str -> result str.
Variable read_epub : str -> result book.
Variable fs_raises : list fs_op -> fs_op -> option exn.

#[warnings="-notation-for-abbreviation"] Notation accepted_of :=
  (accepted_chapters lower isdecimal decode_utf8 BeautifulSoup soup_str md).
#[warnings="-notation-for-abbreviation"] Notation run_process :=
  (process lower isdecimal decode_utf8 BeautifulSoup soup_str md read_epub fs_raises).
#[warnings="-notation-for-abbreviation"] Notation run_main :=
  (main lower isdecimal decode_utf8 BeautifulSoup soup_str md read_epub fs_raises).

Lemma has_unsafe_README : has_unsafe (py "README.md") = false.
Proof. reflexivity. Qed.

(** [create_index_file] once [get_book_info] has returned its entries. *)
Lemma create_index_file_run (b : book) (dir : str) (chapters : list chapter)
    (t a l : pyvalue) (w : world) :
  get_book_info (Some b)
    = Ok (<["language" := l]> (<["author" := a]> (<["title" := t]> ∅))) ->
  create_index_file fs_raises (Some b) dir chapters w =
  match fs_raises (fs_calls w) (index_write dir chapters t a l) with
  | Some e => (Raise e, World (stdout w) (fs_calls w ++ [index_write dir chapters t a l]))
  | None => (Ok tt, World (stdout w ++ [Created_index])
                          (fs_calls w ++ [index_write dir chapters t a l]))
  end.
Proof.
  intros H. unfold create_index_file. rewrite H.
  unfold bind at 1, lift at 1.
  unfold bind at 1, lift at 1, getitem at 1. simplify_map_eq.
  unfold bind at 1, lift at 1, getitem at 1. simplify_map_eq.
  unfold bind at 1, lift at 1, getitem at 1. simplify_map_eq.
  unfold bind, fs_call, print. fold (index_write dir chapters t a l).
  destruct (fs_raises (fs_calls w) (index_write dir chapters t a l)); reflexivity.
Qed.

(** The calls of [create_index_file]: at most one, a write inside [dir]. *)
Lemma create_index_file_calls (sb : option book) (dir : str)
    (chapters : list chapter) (w : world) :
  exists calls,
    fs_calls (snd (create_index_file fs_raises sb dir chapters w)) = fs_calls w ++ calls /\
    Forall (child_write dir) calls.
Proof.
  unfold create_index_file, bind, lift.
  destruct (get_book_info sb) as [info|e];
    [|exists []; rewrite app_nil_r; split; [reflexivity | constructor]].
  destruct (getitem info "title") as [t|e];
    [|exists []; rewrite app_nil_r; split; [reflexivity | constructor]].
  destruct (getitem info "author") as [a|e];
    [|exists []; rewrite app_nil_r; split; [reflexivity | constructor]].
  destruct (getitem info "language") as [l|e];
    [|exists []; rewrite app_nil_r; split; [reflexivity | constructor]].
  cbv zeta. unfold fs_call, print.
  match goal with
  | |- context [fs_raises ?a ?op] =>
      exists [op]; destruct (fs_raises a op); cbn [snd fs_calls];
      (split; [reflexivity|]);
      (apply List.Forall_cons; [|apply List.Forall_nil]);
      eexists; eexists; (split; [reflexivity | apply has_unsafe_README])
  end.
Qed.

(** X15. With no book, [create_index_file] raises [KeyError] at its first
    lookup, before any call.  With a book whose metadata queries are
    tolerated and whose creators all have a text, it makes exactly one
    call, the write of README.md in the output directory, with the header
    built from the resolved metadata and the chapter count followed by the
    lines of the loop; it prints its line when that write returns and
    raises the error of the write otherwise.  When a creator has no text it
    raises the [TypeError] of the join before any call. *)
Theorem create_index_file_one_write
    (b : book) (dir : str) (chapters : list chapter) (w : world) :
  tolerated (get_metadata b DC (py "title")) = true ->
  tolerated (get_metadata b DC (py "creator")) = true ->
  tolerated (get_metadata b DC (py "language")) = true ->
  let op :=
    Write_text (path_join dir (py "README.md"))
      (index_each 1 chapters
         (index_header
            (format_value (value_or_unknown (get_metadata b DC (py "title"))))
            (format_value (authors_or_unknown (get_metadata b DC (py "creator"))))
            (format_value (value_or_unknown (get_metadata b DC (py "language"))))
            (length chapters))) in
  create_index_file fs_raises (Some b) dir chapters w =
    (if creators_have_text (get_metadata b DC (py "creator")) then
       match fs_raises (fs_calls w) op with
       | Some e => (Raise e, World (stdout w) (fs_calls w ++ [op]))
       | None => (Ok tt, World (stdout w ++ [Created_index]) (fs_calls w ++ [op]))
       end
     else (Raise TypeError, w)) /\
  create_index_file fs_raises None dir chapters w = (Raise KeyError, w).
Proof.
  intros Ht Hc Hl op. split; [|reflexivity].
  pose proof (get_book_info_run b) as Hrun.
  rewrite (first_value_entry_tolerated _ Ht), (author_entry_tolerated _ Hc),
    (first_value_entry_tolerated _ Hl) in Hrun.
  destruct (creators_have_text (get_metadata b DC (py "creator"))).
  - cbn [rbind] in Hrun. rewrite (create_index_file_run _ _ _ _ _ _ _ Hrun). reflexivity.
  - cbn [rbind] in Hrun. unfold create_index_file. rewrite Hrun. reflexivity.
Qed.

Lemma load_epub_run (epub_path : str) (w : world) :
  load_epub read_epub epub_path w =
  match read_epub epub_path with
  | Raise e => (Raise (LoadFailure e), w)
  | Ok b =>
      match get_metadata b DC (py "title") with
      | Raise e => (Raise (LoadFailure e), w)
      | Ok [] => (Raise (LoadFailure IndexError), w)
      | Ok (x :: _) => (Ok b, said w (Loaded_EPUB (format_value (fst x))))
      end
  end.
Proof.
  unfold load_epub, try_except, bind, lift, raise, print, ret, said.
  destruct (read_epub epub_path) as [b|e]; [|reflexivity].
  destruct (get_metadata b DC (py "title")) as [[|x xs]|e]; reflexivity.
Qed.

(** X16. [load_epub] returns the book the reader returned, having printed
    its first title, exactly when the reader returns and the title query
    returns a list that is not empty; in every other case it raises a
    [LoadFailure] that carries the cause, having printed nothing.  It makes
    no call to the file system. *)
Theorem load_epub_wraps_every_error (epub_path : str) (w : world) :
  match load_epub read_epub epub_path w with
  | (Ok b, w') =>
      read_epub epub_path = Ok b /\
      exists x xs, get_metadata b DC (py "title") = Ok (x :: xs) /\
                   w' = said w (Loaded_EPUB (format_value (fst x)))
  | (Raise e, w') =>
      w' = w /\
      exists cause, e = LoadFailure cause /\
        (read_epub epub_path = Raise cause \/
         exists b, read_epub epub_path = Ok b /\
                   (get_metadata b DC (py "title") = Raise cause \/
                    get_metadata b DC (py "title") = Ok [] /\ cause = IndexError))
  end /\
  fs_calls (snd (load_epub read_epub epub_path w)) = fs_calls w.
Proof.
  rewrite load_epub_run.
  destruct (read_epub epub_path) as [b|e].
  - destruct (get_metadata b DC (py "title")) as [[|x xs]|e] eqn:E.
    + split; [|reflexivity]. split; [reflexivity|].
      exists IndexError. split; [reflexivity|]. right. exists b. tauto.
    + split; [|reflexivity]. split; [reflexivity|]. exists x, xs. tauto.
    + split; [|reflexivity]. split; [reflexivity|].
      exists e. split; [reflexivity|]. right. exists b. tauto.
  - split; [|reflexivity]. split; [reflexivity|].
    exists e. split; [reflexivity|]. left. reflexivity.
Qed.

(** [save_chapters], in full. *)
Lemma save_chapters_run (dir : str) (chapters : list chapter) (w : world) :
  save_chapters fs_raises dir chapters w =
  match fs_raises (fs_calls w) (Mkdir_exist_ok dir) with
  | Some e => (Raise e, World (stdout w) (fs_calls w ++ [Mkdir_exist_ok dir]))
  | None =>
      (Ok tt,
       World (stdout w ++ [Saving_chapters_to dir]
                ++ save_report fs_raises dir (fs_calls w ++ [Mkdir_exist_ok dir])
                     (enumerate 1 chapters)
                ++ [Completed (length chapters) dir])
             (fs_calls w ++ Mkdir_exist_ok dir
                :: List.map (chapter_write dir) (enumerate 1 chapters)))
  end.
Proof.
  unfold save_chapters. unfold bind at 1. unfold fs_call at 1.
  destruct (fs_raises (fs_calls w) (Mkdir_exist_ok dir)) as [e|]; [reflexivity|].
  unfold bind at 1, print at 1. cbn [stdout fs_calls].
  unfold bind at 1. rewrite save_each_report. cbn [stdout fs_calls].
  unfold print. cbn [stdout fs_calls]. rewrite <- !app_assoc. reflexivity.
Qed.

(** The calls of [save_chapters]: none but the directory, then writes
    inside it. *)
Lemma save_chapters_calls (dir : str) (chapters : list chapter) (w : world) :
  exists rest,
    fs_calls (snd (save_chapters fs_raises dir chapters w))
      = fs_calls w ++ Mkdir_exist_ok dir :: rest /\
    Forall (child_write dir) rest.
Proof.
  rewrite save_chapters_run.
  destruct (fs_raises (fs_calls w) (Mkdir_exist_ok dir)) as [e|].
  - exists []. split; [reflexivity | constructor].
  - exists (List.map (chapter_write dir) (enumerate 1 chapters)).
    split; [reflexivity|].
    apply List.Forall_forall. intros op Hop. apply in_map_iff in Hop.
    destruct Hop as [ic [<- _]]. unfold chapter_write. eexists. eexists.
    split; [reflexivity|]. apply chapter_filename_safe.
Qed.

(** [process] once the container has loaded: the world in which the
    writers start, and what they are given. *)
Lemma process_run (epub_path dir : str) (b : book) (x : meta_value)
    (xs : list meta_value) (w : world) :
  read_epub epub_path = Ok b ->
  get_metadata b DC (py "title") = Ok (x :: xs) ->
  exists out,
    run_process epub_path dir w =
    match accepted_of (get_spine_items b) with
    | [] => (Ok tt, World (stdout w ++ out ++ [No_chapters_found]) (fs_calls w))
    | c :: cs =>
        bind (save_chapters fs_raises dir (c :: cs))
             (fun _ => create_index_file fs_raises (Some b) dir (c :: cs))
             (World (stdout w ++ out) (fs_calls w))
    end.
Proof.
  intros Hread Htitle.
  exists (Processing_EPUB epub_path :: Loaded_EPUB (format_value (fst x))
          :: Found_items_in_spine (length (get_spine_items b))
          :: outcome_lines 1
               (List.map (item_outcome lower isdecimal decode_utf8 BeautifulSoup soup_str md)
                         (get_spine_items b))).
  unfold process. unfold bind at 1, print at 1.
  unfold bind at 1. rewrite load_epub_run, Hread, Htitle. unfold said.
  cbn [stdout fs_calls].
  unfold bind at 1. rewrite process_chapters_run. cbn [stdout fs_calls].
  destruct (accepted_of (get_spine_items b)) as [|c cs].
  - unfold bind, print, ret. cbn [stdout fs_calls]. rewrite <- !app_assoc. reflexivity.
  - rewrite <- !app_assoc. reflexivity.
Qed.

(** X17. Every run of [process] leaves the file system alone or starts by
    making the output directory; everything it writes after that is a file
    directly inside that directory, whatever the titles of the chapters. *)
Theorem process_writes_inside_output_dir (epub_path dir : str) (w : world) :
  exists calls,
    fs_calls (snd (process lower isdecimal decode_utf8 BeautifulSoup soup_str md
                     read_epub fs_raises epub_path dir w))
      = fs_calls w ++ calls /\
    (calls = [] \/
     exists rest, calls = Mkdir_exist_ok dir :: rest /\ Forall (child_write dir) rest).
Proof.
  unfold process. unfold bind at 1, print at 1.
  unfold bind at 1. rewrite load_epub_run. cbn [stdout fs_calls].
  assert (Hnone : forall (r : result unit) (out : list line),
            exists calls,
              fs_calls (snd (r, World out (fs_calls w))) = fs_calls w ++ calls /\
              (calls = [] \/ exists rest, calls = Mkdir_exist_ok dir :: rest /\
                                          Forall (child_write dir) rest)).
  { intros r out. exists []. rewrite app_nil_r. split; [reflexivity | left; reflexivity]. }
  destruct (read_epub epub_path) as [b|e]; [|apply Hnone].
  destruct (get_metadata b DC (py "title")) as [[|x xs]|e]; [apply Hnone| |apply Hnone].
  unfold bind at 1. rewrite process_chapters_run.
  destruct (accepted_chapters _ _ _ _ _ _ _) as [|c cs]; [apply Hnone|].
  unfold bind at 1.
  match goal with
  | |- context [save_chapters fs_raises dir ?chs ?w0] =>
      destruct (save_chapters_calls dir chs w0) as [rest [Hs Hrest]];
      destruct (save_chapters fs_raises dir chs w0) as [[u|e] w1] eqn:Es
  end; cbn [snd] in Hs; cbn [said stdout fs_calls] in Hs.
  - match goal with
    | |- context [create_index_file fs_raises ?sb dir ?chs w1] =>
        destruct (create_index_file_calls sb dir chs w1) as [more [Hc Hmore]]
    end.
    exists (Mkdir_exist_ok dir :: rest ++ more). split.
    + rewrite Hc, Hs, <- app_assoc. reflexivity.
    + right. exists (rest ++ more). split; [reflexivity|].
      apply Forall_app. split; assumption.
  - exists (Mkdir_exist_ok dir :: rest). cbn [snd]. split; [exact Hs|].
    right. exists rest. split; [reflexivity | exact Hrest].
Qed.

(** What [create_index_file] writes: nothing, or README.md in [dir]. *)
Lemma create_index_file_paths (sb : option book) (dir : str)
    (chapters : list chapter) (w : world) :
  exists index,
    written_paths (fs_calls (snd (create_index_file fs_raises sb dir chapters w)))
      = written_paths (fs_calls w) ++ index /\
    (index = [] \/ index = [path_join dir (py "README.md")]).
Proof.
  unfold create_index_file, bind, lift.
  destruct (get_book_info sb) as [info|e];
    [|exists []; rewrite app_nil_r; split; [reflexivity | left; reflexivity]].
  destruct (getitem info "title") as [t|e];
    [|exists []; rewrite app_nil_r; split; [reflexivity | left; reflexivity]].
  destruct (getitem info "author") as [a|e];
    [|exists []; rewrite app_nil_r; split; [reflexivity | left; reflexivity]].
  destruct (getitem info "language") as [l|e];
    [|exists []; rewrite app_nil_r; split; [reflexivity | left; reflexivity]].
  cbv zeta. unfold fs_call, print.
  exists [path_join dir (py "README.md")].
  match goal with
  | |- context [fs_raises ?a ?op] => destruct (fs_raises a op)
  end; cbn [snd fs_calls]; rewrite written_paths_app;
    (split; [reflexivity | right; reflexivity]).
Qed.

(** C8. In a run of [process] that loads the container and makes the
    output directory, the chapter files written are those of the accepted
    items only, in reading order, the one at position i of them, counted
    from 1, under the name that starts with i on two digits, followed at
    most by README.md: the numbers read back from the names are 1, 2, ...,
    N without a gap however many items were rejected, every position below
    100 takes exactly two digits, and no two names are equal.
    [save_chapters] numbers any list it is given in this way. *)
Theorem chapter_files_numbered_consecutively
    (epub_path dir : str) (b : book) (x : meta_value) (xs : list meta_value)
    (w : world) :
  read_epub epub_path = Ok b ->
  get_metadata b DC (py "title") = Ok (x :: xs) ->
  fs_raises (fs_calls w) (Mkdir_exist_ok dir) = None ->
  let chapters := accepted_of (get_spine_items b) in
  let names := List.map (fun ic => chapter_filename (fst ic) (fst (snd ic)))
                        (enumerate 1 chapters) in
  (exists index,
     written_paths (fs_calls (snd (run_process epub_path dir w)))
       = written_paths (fs_calls w) ++ List.map (path_join dir) names ++ index /\
     (index = [] \/ index = [path_join dir (py "README.md")])) /\
  List.map filename_number names = seq 1 (length chapters) /\
  length chapters <= length (get_spine_items b) /\
  NoDup names /\
  Forall (fun i => length (fmt_02d i) = 2) (seq 0 100) /\
  (forall (given : list chapter) (w1 : world),
     fs_raises (fs_calls w1) (Mkdir_exist_ok dir) = None ->
     written_paths (fs_calls (snd (save_chapters fs_raises dir given w1)))
       = written_paths (fs_calls w1)
         ++ List.map (fun ic => path_join dir (chapter_filename (fst ic) (fst (snd ic))))
                     (enumerate 1 given) /\
     List.map filename_number
       (List.map (fun ic => chapter_filename (fst ic) (fst (snd ic))) (enumerate 1 given))
       = seq 1 (length given)).
Proof.
  intros Hread Htitle Hmk chapters names.
  assert (Hnum : List.map filename_number names = seq 1 (length chapters))
    by apply chapter_filename_numbers.
  assert (Hsave : forall (given : list chapter) (w1 : world),
            fs_raises (fs_calls w1) (Mkdir_exist_ok dir) = None ->
            written_paths (fs_calls (snd (save_chapters fs_raises dir given w1)))
            = written_paths (fs_calls w1)
              ++ List.map (fun ic => path_join dir (chapter_filename (fst ic) (fst (snd ic))))
                          (enumerate 1 given)).
  { intros given w1 H1. rewrite save_chapters_run, H1. cbn [snd fs_calls].
    rewrite written_paths_app. change (Mkdir_exist_ok dir :: ?l) with ([Mkdir_exist_ok dir] ++ l).
    rewrite written_paths_app, written_paths_chapter_writes. reflexivity. }
  split; [|split; [exact Hnum|split; [apply accepted_chapters_length|split;
            [|split; [exact fmt_02d_two_digits|]]]]].
  - destruct (process_run epub_path dir b x xs w Hread Htitle) as [out Hp].
    rewrite Hp. unfold names. fold chapters.
    destruct chapters as [|c cs] eqn:Echs.
    + exists []. cbn. rewrite app_nil_r. split; [reflexivity | left; reflexivity].
    + unfold bind.
      pose proof (Hsave (c :: cs) (World (stdout w ++ out) (fs_calls w)) Hmk) as Hs.
      rewrite save_chapters_run in *. cbn [fs_calls] in *. rewrite Hmk in *.
      cbn [snd fs_calls] in Hs.
      match goal with
      | |- context [create_index_file fs_raises ?sb dir ?chs ?w1] =>
          destruct (create_index_file_paths sb dir chs w1) as [index [Hi Hindex]]
      end.
      exists index. split; [|exact Hindex].
      rewrite Hi. cbn [fs_calls]. rewrite Hs, List.map_map, <- app_assoc. reflexivity.
  - apply (NoDup_fmap_1 filename_number).
    change (NoDup (List.map filename_number names)).
    rewrite Hnum. apply NoDup_seq.
  - intros given w1 H1. split; [apply Hsave, H1 | apply chapter_filename_numbers].
Qed.

(** C9. In a run of [process] that reaches the index, the file name in each
    link of the table of contents written to README.md is the file name
    under which the chapter file was written in the same run: for the
    chapter at position i both are the two-digit position, an underscore,
    the sanitized title and the extension, the link being that name after a
    dot and a slash. *)
Theorem index_links_match_chapter_files
    (epub_path dir : str) (b : book) (x : meta_value) (xs : list meta_value)
    (info : gmap string pyvalue) (w : world) :
  read_epub epub_path = Ok b ->
  get_metadata b DC (py "title") = Ok (x :: xs) ->
  get_book_info (Some b) = Ok info ->
  fs_raises (fs_calls w) (Mkdir_exist_ok dir) = None ->
  accepted_of (get_spine_items b) <> [] ->
  let chapters := accepted_of (get_spine_items b) in
  let numbered := enumerate 1 chapters in
  let names := List.map (fun ic => fmt_02d (fst ic) ++ py "_"
                                   ++ clean_filename (fst (snd ic)) ++ py ".md")
                        numbered in
  exists t a l,
    info !! "title" = Some t /\ info !! "author" = Some a /\
    info !! "language" = Some l /\
    fs_calls (snd (run_process epub_path dir w))
    = fs_calls w ++ Mkdir_exist_ok dir
        :: zip_with (fun ic name =>
                       Write_text (path_join dir name)
                                  (py "# " ++ fst (snd ic) ++ [NL; NL] ++ snd (snd ic)))
                    numbered names
        ++ [Write_text (path_join dir (py "README.md"))
              (index_header (format_value t) (format_value a) (format_value l)
                            (length chapters)
               ++ concat (zip_with (fun ic name =>
                                      str_of_nat (fst ic) ++ py ". [" ++ fst (snd ic)
                                      ++ py "](./" ++ name ++ py ")" ++ [NL])
                                   numbered names))].
Proof.
  intros Hread Htitle Hinfo Hmk Hne chapters numbered names.
  destruct (get_book_info_entries b info Hinfo) as [t [a [l ->]]].
  exists t, a, l. repeat split; try (simplify_map_eq; reflexivity).
  destruct (process_run epub_path dir b x xs w Hread Htitle) as [out Hp].
  rewrite Hp. unfold names, numbered. fold chapters.
  destruct chapters as [|c cs] eqn:Echs; [contradiction|].
  unfold bind. rewrite save_chapters_run. cbn [fs_calls]. rewrite Hmk.
  rewrite (create_index_file_run _ _ _ _ _ _ _ Hinfo). cbn [fs_calls].
  unfold index_write. rewrite index_each_run, !map_zip_with_self.
  match goal with
  | |- context [fs_raises ?c ?op] => destruct (fs_raises c op)
  end; cbn [snd fs_calls]; rewrite <- app_assoc; reflexivity.
Qed.



(** X20. When the container loads, its creator and language queries are
    tolerated, every creator has a text, at least one item is accepted and
    no call to the file system raises, [process] returns normally and its
    calls are, in this order: the output directory, one write per accepted
    chapter, and the write of README.md. *)
Theorem process_writes_all
    (epub_path dir : str) (b : book) (x : meta_value) (xs : list meta_value) (w : world) :
  read_epub epub_path = Ok b ->
  get_metadata b DC (py "title") = Ok (x :: xs) ->
  tolerated (get_metadata b DC (py "creator")) = true ->
  creators_have_text (get_metadata b DC (py "creator")) = true ->
  tolerated (get_metadata b DC (py "language")) = true ->
  accepted_of (get_spine_items b) <> [] ->
  (forall before op, fs_raises before op = None) ->
  let chapters := accepted_of (get_spine_items b) in
  fst (run_process epub_path dir w) = Ok tt /\
  fs_calls (snd (run_process epub_path dir w))
  = fs_calls w ++ Mkdir_exist_ok dir
      :: List.map (chapter_write dir) (enumerate 1 chapters)
      ++ [Write_text (path_join dir (py "README.md"))
            (index_each 1 chapters
               (index_header (format_value (fst x))
                  (format_value (authors_or_unknown (get_metadata b DC (py "creator"))))
                  (format_value (value_or_unknown (get_metadata b DC (py "language"))))
                  (length chapters)))].
Proof.
  intros Hread Htitle Hc Htext Hl Hne Hfs chapters.
  pose proof (get_book_info_run b) as Hinfo.
  rewrite Htitle, (author_entry_tolerated _ Hc), Htext,
    (first_value_entry_tolerated _ Hl) in Hinfo.
  cbn [first_value_entry rbind except_index_key first_first] in Hinfo.
  destruct (process_run epub_path dir b x xs w Hread Htitle) as [out Hp].
  rewrite Hp. fold chapters.
  destruct chapters as [|c cs] eqn:Echs; [contradiction|].
  unfold bind. rewrite save_chapters_run. cbn [fs_calls]. rewrite Hfs.
  rewrite (create_index_file_run _ _ _ _ _ _ _ Hinfo), Hfs. cbn [fst snd fs_calls].
  split; [reflexivity|]. unfold index_write. rewrite <- app_assoc. reflexivity.
Qed.

End RunMore.

Lemma chapter_files_numbered_consecutively_witness :
  length (get_spine_items Sample.book_five) = 5 /\
  exists index,
    written_paths
      (fs_calls (snd (process ascii_lower ascii_isdecimal Sample.decode_utf8
                        Sample.BeautifulSoup Sample.soup_str Sample.md
                        (Sample.read_epub Sample.book_five) Sample.fs_readme_denied
                        (py "book.epub") Sample.out_dir (World [] []))))
    = written_paths []
      ++ List.map (path_join Sample.out_dir)
           (List.map (fun ic => chapter_filename (fst ic) (fst (snd ic)))
              (enumerate 1
                 (accepted_chapters ascii_lower ascii_isdecimal Sample.decode_utf8
                    Sample.BeautifulSoup Sample.soup_str Sample.md
                    (get_spine_items Sample.book_five))))
      ++ index /\
    (index = [] \/ index = [path_join Sample.out_dir (py "README.md")]).
Proof.
  split; [reflexivity|].
  exact (proj1 (chapter_files_numbered_consecutively ascii_lower ascii_isdecimal
                  Sample.decode_utf8 Sample.BeautifulSoup Sample.soup_str Sample.md
                  (Sample.read_epub Sample.book_five) Sample.fs_readme_denied
                  (py "book.epub") Sample.out_dir Sample.book_five
                  (PyStr (py "Test Book"), []) [] (World [] [])
                  eq_refl eq_refl eq_refl)).
Defined.

Lemma index_links_match_chapter_files_witness :
  get_book_info (Some Sample.book_bad_bytes)
  = Ok (<["language" := PyStr (py "en")]>
          (<["author" := PyStr (py "A. Author")]>
             (<["title" := PyStr (py "Test Book")]> ∅))) /\
  written_paths
    (fs_calls (snd (process ascii_lower ascii_isdecimal Sample.decode_utf8
                      Sample.BeautifulSoup Sample.soup_str Sample.md
                      (Sample.read_epub Sample.book_bad_bytes)
                      Sample.fs_first_chapter_denied
                      (py "book.epub") Sample.out_dir (World [] []))))
  = List.map (path_join Sample.out_dir)
      [py "01_Chapter 1.md"; py "02_Chapter 2.md"; py "README.md"].
Proof.
  split; [reflexivity|].
  destruct (index_links_match_chapter_files ascii_lower ascii_isdecimal
              Sample.decode_utf8 Sample.BeautifulSoup Sample.soup_str Sample.md
              (Sample.read_epub Sample.book_bad_bytes) Sample.fs_first_chapter_denied
              (py "book.epub") Sample.out_dir Sample.book_bad_bytes
              (PyStr (py "Test Book"), []) []
              (<["language" := PyStr (py "en")]>
                 (<["author" := PyStr (py "A. Author")]>
                    (<["title" := PyStr (py "Test Book")]> ∅)))
              (World [] [])
              eq_refl eq_refl eq_refl eq_refl ltac:(vm_compute; discriminate))
    as [t [a [l [_ [_ [_ H]]]]]].
  rewrite H. vm_compute. reflexivity.
Defined.

Lemma create_index_file_one_write_witness :
  tolerated (get_metadata Sample.book_anonymous DC (py "creator")) = true /\
  create_index_file Sample.fs_fine (Some Sample.book_anonymous) Sample.out_dir []
    (World [] [])
  = (Ok tt,
     World [Created_index]
       [Write_text (path_join Sample.out_dir (py "README.md"))
          (index_header (py "Test Book") [] (py "en") 0)]) /\
  create_index_file Sample.fs_fine (Some book_empty_creator) Sample.out_dir []
    (World [] [])
  = (Raise TypeError, World [] []).
Proof.
  split; [reflexivity|]. split.
  - apply (create_index_file_one_write Sample.fs_fine Sample.book_anonymous
             Sample.out_dir [] (World [] [])); reflexivity.
  - apply (create_index_file_one_write Sample.fs_fine book_empty_creator
             Sample.out_dir [] (World [] [])); reflexivity.
Defined.

Lemma process_writes_all_witness :
  written_paths
    (fs_calls (snd (process ascii_lower ascii_isdecimal Sample.decode_utf8
                      Sample.BeautifulSoup Sample.soup_str Sample.md
                      (Sample.read_epub Sample.book_five) Sample.fs_fine
                      (py "book.epub") Sample.out_dir (World [] []))))
  = List.map (path_join Sample.out_dir)
      [py "01_Chapter 1.md"; py "02_Chapter 2.md"; py "03_Chapter 3.md";
       py "04_Chapter 4.md"; py "README.md"].
Proof.
  rewrite (proj2 (process_writes_all ascii_lower ascii_isdecimal Sample.decode_utf8
                    Sample.BeautifulSoup Sample.soup_str Sample.md
                    (Sample.read_epub Sample.book_five) Sample.fs_fine
                    (py "book.epub") Sample.out_dir Sample.book_five
                    (PyStr (py "Test Book"), []) [] (World [] [])
                    eq_refl eq_refl eq_refl eq_refl eq_refl
                    ltac:(vm_compute; discriminate)
                    (fun _ _ => eq_refl))).
  vm_compute. reflexivity.
Defined.

(** X19. The number in front of a line of the table of contents and the
    number in front of a chapter file name both read back as the position
    they were formatted from, so two positions never share either. *)
Theorem positions_read_back (i : nat) (title filename : str) :
  filename_number (toc_line i title filename) = i /\
  filename_number (fmt_02d i) = i /\
  filename_number (str_of_nat i) = i.
Proof.
  unfold filename_number, toc_line, fmt_02d, str_of_nat. cbv zeta.
  repeat split.
  - rewrite leading_number_uint.
    change (leading_number ?a (py ". [" ++ ?r)) with a. apply Unsigned.of_to.
  - rewrite leading_number_zeros. rewrite <- (app_nil_r (uint_chars _)).
    rewrite leading_number_uint. apply Unsigned.of_to.
  - rewrite <- (app_nil_r (uint_chars _)).
    rewrite leading_number_uint. apply Unsigned.of_to.
Qed.
